(** * beanstalkc: the protocol interaction layer and the job handles

    A shallow embedding of [beanstalkc.py]: the response dispatcher
    [Connection._interact] with its helpers, the public verbs built on it,
    and the [Job] handle.  Python [bytes] are [list byte]; the socket is an
    explicit state threaded through a state-and-exception monad. *)

From Stdlib Require Import List ZArith Lia Bool String.
From Stdlib Require Decimal DecimalZ DecimalPos.
From Stdlib Require Import Strings.Byte.
Import ListNotations.

Local Open Scope Z_scope.

(** ** Python [bytes] *)

Module Bytes.

Definition bytes := list byte.

(** A bytes literal, written as a Rocq string. *)
Definition B (s : string) : bytes := list_byte_of_string s.

Definition CR : byte := x0d.
Definition LF : byte := x0a.
Definition SP : byte := x20.
Definition crlf : bytes := [CR; LF].

Fixpoint bytes_eqb (a b : bytes) : bool :=
  match a, b with
  | [], [] => true
  | x :: a', y :: b' => Byte.eqb x y && bytes_eqb a' b'
  | _, _ => false
  end.

(** [x in xs] for a list of bytes objects. *)
Definition py_in (x : bytes) (xs : list bytes) : bool :=
  existsb (bytes_eqb x) xs.

(** ASCII whitespace as [bytes.split()] and [bytes.isspace()] see it:
    space, tab, newline, carriage return, vertical tab, form feed. *)
Definition is_space (c : byte) : bool :=
  match c with
  | x09 | x0a | x0b | x0c | x0d | x20 => true
  | _ => false
  end.

(** [s.split()] with no separator: maximal runs of non-whitespace bytes.
    [cur] is the token being read, most recent byte first. *)
Fixpoint split_from (cur : bytes) (s : bytes) : list bytes :=
  match s with
  | [] => match cur with [] => [] | _ => [rev cur] end
  | c :: s' =>
      if is_space c
      then match cur with
           | [] => split_from [] s'
           | _ => rev cur :: split_from [] s'
           end
      else split_from (c :: cur) s'
  end.

Definition split (s : bytes) : list bytes := split_from [] s.

(** ** Integers on the wire *)

Definition digit_of (c : byte) : option Z :=
  match c with
  | x30 => Some 0 | x31 => Some 1 | x32 => Some 2 | x33 => Some 3
  | x34 => Some 4 | x35 => Some 5 | x36 => Some 6 | x37 => Some 7
  | x38 => Some 8 | x39 => Some 9
  | _ => None
  end.

(** The digit part of an [int()] literal in base 10: digits, with single
    underscores allowed between two digits.  [prev] records that the
    previous byte was a digit. *)
Fixpoint digits_val (acc : Z) (prev : bool) (s : bytes) : option Z :=
  match s with
  | [] => if prev then Some acc else None
  | c :: s' =>
      match digit_of c with
      | Some d => digits_val (10 * acc + d) true s'
      | None =>
          if Byte.eqb c x5f
          then (if prev then digits_val acc false s' else None)
          else None
      end
  end.

Fixpoint lstrip (s : bytes) : bytes :=
  match s with
  | c :: s' => if is_space c then lstrip s' else s
  | [] => []
  end.

Definition strip (s : bytes) : bytes := rev (lstrip (rev (lstrip s))).

(** [int(s)] for a bytes object: surrounding whitespace is dropped, then an
    optional sign and the digits.  [None] stands for the [ValueError].
    The interpreter's limit on the number of digits it converts is not
    part of this function. *)
Definition py_int (s : bytes) : option Z :=
  match strip s with
  | x2b :: ds => digits_val 0 false ds
  | x2d :: ds => option_map Z.opp (digits_val 0 false ds)
  | ds => digits_val 0 false ds
  end.

Fixpoint uint_bytes (d : Decimal.uint) : bytes :=
  match d with
  | Decimal.Nil => []
  | Decimal.D0 d' => x30 :: uint_bytes d'
  | Decimal.D1 d' => x31 :: uint_bytes d'
  | Decimal.D2 d' => x32 :: uint_bytes d'
  | Decimal.D3 d' => x33 :: uint_bytes d'
  | Decimal.D4 d' => x34 :: uint_bytes d'
  | Decimal.D5 d' => x35 :: uint_bytes d'
  | Decimal.D6 d' => x36 :: uint_bytes d'
  | Decimal.D7 d' => x37 :: uint_bytes d'
  | Decimal.D8 d' => x38 :: uint_bytes d'
  | Decimal.D9 d' => x39 :: uint_bytes d'
  end.

(** [b'%d' % z]: the decimal digits of [z], with a minus sign when it is
    negative.  The interpreter's limit on the number of digits it converts
    is not part of this function. *)
Definition fmt_d (z : Z) : bytes :=
  match Z.to_int z with
  | Decimal.Pos d => uint_bytes d
  | Decimal.Neg d => x2d :: uint_bytes d
  end.

(** [f.readline()] on the bytes still to come: up to and including the
    first line feed, or everything when there is none. *)
Fixpoint take_line (s : bytes) : bytes * bytes :=
  match s with
  | [] => ([], [])
  | c :: s' =>
      if Byte.eqb c LF then ([c], s')
      else let (l, r) := take_line s' in (c :: l, r)
  end.

End Bytes.
Import Bytes.

(** ** Exceptions and the monad of methods *)

Inductive exn : Type :=
| socket_error                      (* the standard library's socket.error *)
| SocketError (wrapped : bool)      (* SocketError(err) / SocketError() *)
| UnexpectedResponse (verb status : bytes) (results : list bytes)
| CommandFailed (verb status : bytes) (results : list bytes)
| DeadlineSoon (results : list bytes)
| ValueError
| IndexError
| KeyError
| TypeError
| YAMLError.

Inductive Res (A : Type) : Type :=
| Ok (a : A)
| Raise (e : exn).
Arguments Ok {A} a.
Arguments Raise {A} e.

(** A method body: it runs on a state, ends with a value or an exception,
    and leaves a state behind in both cases. *)
Definition M (S A : Type) : Type := S -> Res A * S.

Definition ret {S A} (a : A) : M S A := fun s => (Ok a, s).
Definition raise {S A} (e : exn) : M S A := fun s => (Raise e, s).
Definition bind {S A B} (m : M S A) (k : A -> M S B) : M S B :=
  fun s => match m s with
           | (Ok a, s') => k a s'
           | (Raise e, s') => (Raise e, s')
           end.

Notation "x <- m ;; k" := (bind m (fun x => k))
  (at level 61, m at next level, right associativity).
Notation "m ;;; k" := (bind m (fun _ => k))
  (at level 61, right associativity).

(** [try: m  except CommandFailed: h(exc.args)] *)
Definition except_CommandFailed {S A} (m : M S A)
    (h : bytes -> bytes -> list bytes -> M S A) : M S A :=
  fun s => match m s with
           | (Raise (CommandFailed verb status results), s') =>
               h verb status results s'
           | r => r
           end.

(** [int(x)] where a failure is the [ValueError]. *)
Definition int_ {S} (x : bytes) : M S Z :=
  match py_int x with
  | Some z => ret z
  | None => raise ValueError
  end.

(** [xs[0]] *)
Definition item0 {S} (xs : list bytes) : M S bytes :=
  match xs with
  | x :: _ => ret x
  | [] => raise IndexError
  end.

(** ** Values that are not bytes *)

(** What a caller may pass where a bytes object is wanted. *)
Inductive pyarg : Type :=
| Bytes (b : bytes)
| Text (s : string).

(** Scalars of a decoded document, and the documents the stats and list
    verbs decode to; [DBytes] is the undecoded body.  The scalars are the
    integers and text strings of the daemon's stats documents; floats,
    booleans and nulls are outside this model. *)
Inductive scalar : Type :=
| SInt (z : Z)
| SStr (s : string).

Inductive document : Type :=
| DMap (entries : list (string * scalar))
| DSeq (items : list scalar)
| DBytes (raw : bytes).

Fixpoint dict_get (k : string) (entries : list (string * scalar))
  : option scalar :=
  match entries with
  | [] => None
  | (k', v) :: rest => if String.eqb k k' then Some v else dict_get k rest
  end.

(** [b'%d' % v] *)
Definition fmt_d_scalar {S} (v : scalar) : M S bytes :=
  match v with
  | SInt z => ret (fmt_d z)
  | SStr _ => raise TypeError
  end.

Definition DEFAULT_PRIORITY : Z := 2 ^ 31.
Definition DEFAULT_TTR : Z := 120.

(** ** The socket and its peer *)

Section WithPeer.

Context {DS : Type}.

(** The socket together with the daemon behind it.  The daemon is a state
    machine that answers each [sendall] payload with the bytes it writes
    back; [rbuf] holds what was received and not read yet, and the end of
    [rbuf] is the end of the stream.  [faults] schedules I/O faults: each
    I/O call takes the head, and [true] makes the call raise
    [socket.error]. *)
Record Transport : Type := mkTransport {
  peer_step : DS -> bytes -> DS * bytes;
  peer_state : DS;
  rbuf : bytes;
  sent : list bytes;
  faults : list bool
}.

Definition io_call (t : Transport) : bool * Transport :=
  match faults t with
  | [] => (false, t)
  | f :: fs =>
      (f, mkTransport (peer_step t) (peer_state t) (rbuf t) (sent t) fs)
  end.

Definition sendall (data : bytes) : M Transport unit :=
  fun t =>
    let (fault, t1) := io_call t in
    if fault then (Raise socket_error, t1)
    else
      let (d', answer) := peer_step t1 (peer_state t1) data in
      (Ok tt, mkTransport (peer_step t1) d' (rbuf t1 ++ answer)
                (sent t1 ++ [data]) (faults t1)).

Definition readline : M Transport bytes :=
  fun t =>
    let (fault, t1) := io_call t in
    if fault then (Raise socket_error, t1)
    else
      let (line, rest) := take_line (rbuf t1) in
      (Ok line, mkTransport (peer_step t1) (peer_state t1) rest
                  (sent t1) (faults t1)).

(** [f.read(size)] of a buffered reader: [size] bytes or what is left
    before the end of the stream; everything for -1; a [ValueError] below
    that, raised before any I/O.  A size too large for the reader to
    allocate its buffer is outside this model. *)
Definition read (size : Z) : M Transport bytes :=
  fun t =>
    if size <? -1 then (Raise ValueError, t)
    else
      let (fault, t1) := io_call t in
      if fault then (Raise socket_error, t1)
      else
        let n := if size =? -1 then List.length (rbuf t1)
                 else Z.to_nat size in
        (Ok (firstn n (rbuf t1)),
         mkTransport (peer_step t1) (peer_state t1) (skipn n (rbuf t1))
           (sent t1) (faults t1)).

(** [SocketError.wrap] *)
Definition SocketError_wrap {A} (f : M Transport A) : M Transport A :=
  fun t => match f t with
           | (Raise socket_error, t') => (Raise (SocketError true), t')
           | r => r
           end.

(** ** Connection *)

Record Connection : Type := mkConnection {
  _socket : Transport;
  _parse_yaml : bytes -> Res document
}.

(** A transport action run on the connection's socket. *)
Definition on_socket {A} (f : M Transport A) : M Connection A :=
  fun c => match f (_socket c) with
           | (r, t') => (r, mkConnection t' (_parse_yaml c))
           end.

End WithPeer.
Arguments Transport : clear implicits.
Arguments Connection : clear implicits.

(** The fields of a [Job] object other than [conn]; the connection it
    refers to is the one in the state its methods run on. *)
Record Job : Type := mkJob {
  jid : Z;
  body : bytes;
  reserved : bool
}.

Module Connection.
Section Methods.

Context {DS : Type}.
Local Abbreviation Conn := (Connection DS).

Definition _read_response : M Conn (bytes * list bytes) :=
  line <- on_socket (SocketError_wrap readline) ;;
  match line with
  | [] => raise (SocketError false)
  | _ =>
      match split line with
      | status :: results => ret (status, results)
      | [] => raise IndexError
      end
  end.

Definition _interact (command : bytes) (expected_ok expected_err : list bytes)
  : M Conn (list bytes) :=
  on_socket (SocketError_wrap (sendall command)) ;;;
  response <- _read_response ;;
  let (status, results) := response in
  if py_in status expected_ok then ret results
  else if py_in status expected_err then
    verb <- item0 (split command) ;;
    raise (CommandFailed verb status results)
  else
    verb <- item0 (split command) ;;
    raise (UnexpectedResponse verb status results).

Definition _read_body (size : Z) : M Conn bytes :=
  body <- on_socket (SocketError_wrap (read size)) ;;
  on_socket (SocketError_wrap (read 2)) ;;;
  if (0 <? size) && (match body with [] => true | _ => false end)
  then raise (SocketError false)
  else ret body.

Definition _interact_value (command : bytes)
    (expected_ok expected_err : list bytes) : M Conn bytes :=
  results <- _interact command expected_ok expected_err ;;
  item0 results.

Definition _interact_job (command : bytes)
    (expected_ok expected_err : list bytes) (reserved : bool) : M Conn Job :=
  results <- _interact command expected_ok expected_err ;;
  match results with
  | [jid; size] =>
      n <- int_ size ;;
      body <- _read_body n ;;
      j <- int_ jid ;;
      ret (mkJob j body reserved)
  | _ => raise ValueError
  end.

Definition _interact_yaml (command : bytes)
    (expected_ok expected_err : list bytes) : M Conn document :=
  results <- _interact command expected_ok expected_err ;;
  match results with
  | [size] =>
      n <- int_ size ;;
      body <- _read_body n ;;
      fun c => (_parse_yaml c body, c)
  | _ => raise ValueError
  end.

Definition _interact_peek (command : bytes) : M Conn (option Job) :=
  except_CommandFailed
    (j <- _interact_job command [B "FOUND"] [B "NOT_FOUND"] false ;;
     ret (Some j))
    (fun _ _ _ => ret None).

(** *** Public interface *)

Definition put (body : pyarg) (priority delay ttr : Z) : M Conn Z :=
  match body with
  | Text _ => raise ValueError
  | Bytes b =>
      jid <- _interact_value
               (B "put " ++ fmt_d priority ++ [SP] ++ fmt_d delay ++ [SP]
                  ++ fmt_d ttr ++ [SP] ++ fmt_d (Z.of_nat (List.length b))
                  ++ crlf ++ b ++ crlf)
               [B "INSERTED"]
               [B "JOB_TOO_BIG"; B "BURIED"; B "DRAINING"] ;;
      int_ jid
  end.

Definition reserve_command (timeout : option Z) : bytes :=
  match timeout with
  | Some t => B "reserve-with-timeout " ++ fmt_d t ++ crlf
  | None => B "reserve" ++ crlf
  end.

Definition reserve (timeout : option Z) : M Conn (option Job) :=
  let command := reserve_command timeout in
  except_CommandFailed
    (j <- _interact_job command
            [B "RESERVED"] [B "DEADLINE_SOON"; B "TIMED_OUT"] true ;;
     ret (Some j))
    (fun _ status results =>
       if bytes_eqb status (B "TIMED_OUT") then ret None
       else if bytes_eqb status (B "DEADLINE_SOON")
            then raise (DeadlineSoon results)
            else ret None).

Definition kick (bound : Z) : M Conn Z :=
  v <- _interact_value (B "kick " ++ fmt_d bound ++ crlf) [B "KICKED"] [] ;;
  int_ v.

Definition kick_job (jid : Z) : M Conn unit :=
  _interact (B "kick-job " ++ fmt_d jid ++ crlf)
    [B "KICKED"] [B "NOT_FOUND"] ;;;
  ret tt.

Definition peek (jid : Z) : M Conn (option Job) :=
  _interact_peek (B "peek " ++ fmt_d jid ++ crlf).

Definition peek_ready : M Conn (option Job) :=
  _interact_peek (B "peek-ready" ++ crlf).

Definition peek_delayed : M Conn (option Job) :=
  _interact_peek (B "peek-delayed" ++ crlf).

Definition peek_buried : M Conn (option Job) :=
  _interact_peek (B "peek-buried" ++ crlf).

Definition tubes : M Conn document :=
  _interact_yaml (B "list-tubes" ++ crlf) [B "OK"] [].

(** [using], which is a reserved word here. *)
Definition using_ : M Conn bytes :=
  _interact_value (B "list-tube-used" ++ crlf) [B "USING"] [].

Definition use (name : pyarg) : M Conn bytes :=
  match name with
  | Text _ => raise ValueError
  | Bytes n => _interact_value (B "use " ++ n ++ crlf) [B "USING"] []
  end.

Definition watching : M Conn document :=
  _interact_yaml (B "list-tubes-watched" ++ crlf) [B "OK"] [].

Definition watch (name : pyarg) : M Conn Z :=
  match name with
  | Text _ => raise ValueError
  | Bytes n =>
      v <- _interact_value (B "watch " ++ n ++ crlf) [B "WATCHING"] [] ;;
      int_ v
  end.

Definition ignore (name : pyarg) : M Conn Z :=
  match name with
  | Text _ => raise ValueError
  | Bytes n =>
      except_CommandFailed
        (v <- _interact_value (B "ignore " ++ n ++ crlf)
                [B "WATCHING"] [B "NOT_IGNORED"] ;;
         int_ v)
        (fun _ _ _ => ret 1)
  end.

Definition stats : M Conn document :=
  _interact_yaml (B "stats" ++ crlf) [B "OK"] [].

Definition stats_tube (name : pyarg) : M Conn document :=
  match name with
  | Text _ => raise ValueError
  | Bytes n =>
      _interact_yaml (B "stats-tube " ++ n ++ crlf) [B "OK"] [B "NOT_FOUND"]
  end.

Definition pause_tube (name : pyarg) (delay : Z) : M Conn unit :=
  match name with
  | Text _ => raise ValueError
  | Bytes n =>
      _interact (B "pause-tube " ++ n ++ [SP] ++ fmt_d delay ++ crlf)
        [B "PAUSED"] [B "NOT_FOUND"] ;;;
      ret tt
  end.

(** *** Job interactors *)

Definition delete (jid : Z) : M Conn unit :=
  _interact (B "delete " ++ fmt_d jid ++ crlf)
    [B "DELETED"] [B "NOT_FOUND"] ;;;
  ret tt.

Definition release (jid : Z) (priority : scalar) (delay : Z) : M Conn unit :=
  pri <- fmt_d_scalar priority ;;
  _interact (B "release " ++ fmt_d jid ++ [SP] ++ pri ++ [SP]
               ++ fmt_d delay ++ crlf)
    [B "RELEASED"; B "BURIED"] [B "NOT_FOUND"] ;;;
  ret tt.

Definition bury (jid : Z) (priority : scalar) : M Conn unit :=
  pri <- fmt_d_scalar priority ;;
  _interact (B "bury " ++ fmt_d jid ++ [SP] ++ pri ++ crlf)
    [B "BURIED"] [B "NOT_FOUND"] ;;;
  ret tt.

Definition touch (jid : Z) : M Conn unit :=
  _interact (B "touch " ++ fmt_d jid ++ crlf)
    [B "TOUCHED"] [B "NOT_FOUND"] ;;;
  ret tt.

Definition stats_job (jid : Z) : M Conn document :=
  _interact_yaml (B "stats-job " ++ fmt_d jid ++ crlf)
    [B "OK"] [B "NOT_FOUND"].

End Methods.
End Connection.

(** ** Job *)

Module Job.
Section Methods.

Context {DS : Type}.

(** A job object together with the connection its [conn] field refers
    to. *)
Record Handle : Type := mkHandle {
  self : Job;
  conn : Connection DS
}.

(** [self.conn.<method>(...)] *)
Definition on_conn {A} (m : M (Connection DS) A) : M Handle A :=
  fun h => match m (conn h) with
           | (r, c') => (r, mkHandle (self h) c')
           end.

Definition get_self : M Handle Job := fun h => (Ok (self h), h).

(** [self.reserved = v] *)
Definition set_reserved (v : bool) : M Handle unit :=
  fun h => (Ok tt, mkHandle (mkJob (jid (self h)) (body (self h)) v) (conn h)).

Definition stats : M Handle document :=
  j <- get_self ;;
  on_conn (Connection.stats_job (jid j)).

Definition _priority : M Handle scalar :=
  stats <- stats ;;
  match stats with
  | DMap entries =>
      match dict_get "pri" entries with
      | Some v => ret v
      | None => raise KeyError
      end
  | _ => ret (SInt DEFAULT_PRIORITY)
  end.

(** [priority or self._priority()]: [None] and 0 are the falsy values. *)
Definition priority_or (priority : option Z) (fallback : M Handle scalar)
  : M Handle scalar :=
  match priority with
  | None => fallback
  | Some p => if p =? 0 then fallback else ret (SInt p)
  end.

Definition delete : M Handle unit :=
  j <- get_self ;;
  on_conn (Connection.delete (jid j)) ;;;
  set_reserved false.

Definition release (priority : option Z) (delay : Z) : M Handle unit :=
  j <- get_self ;;
  if reserved j then
    pri <- priority_or priority _priority ;;
    on_conn (Connection.release (jid j) pri delay) ;;;
    set_reserved false
  else ret tt.

Definition bury (priority : option Z) : M Handle unit :=
  j <- get_self ;;
  if reserved j then
    pri <- priority_or priority _priority ;;
    on_conn (Connection.bury (jid j) pri) ;;;
    set_reserved false
  else ret tt.

Definition kick : M Handle unit :=
  j <- get_self ;;
  on_conn (Connection.kick_job (jid j)).

Definition touch : M Handle unit :=
  j <- get_self ;;
  if reserved j then on_conn (Connection.touch (jid j)) else ret tt.

End Methods.
Arguments Handle : clear implicits.
End Job.

(** ** Auxiliary definitions for the statements *)

(** The first two steps of [_interact]: send the command, read one status
    line.  It is what "the daemon answers [status results]" means for a
    connection in a given state. *)
Definition exchange {DS} (command : bytes)
  : M (Connection DS) (bytes * list bytes) :=
  on_socket (SocketError_wrap (sendall command)) ;;;
  Connection._read_response.

(** The four peek calls, as one family. *)
Inductive peek_variant : Type :=
| PeekId (jid : Z)
| PeekReady
| PeekDelayed
| PeekBuried.

Definition peek_command (v : peek_variant) : bytes :=
  match v with
  | PeekId jid => B "peek " ++ fmt_d jid ++ crlf
  | PeekReady => B "peek-ready" ++ crlf
  | PeekDelayed => B "peek-delayed" ++ crlf
  | PeekBuried => B "peek-buried" ++ crlf
  end.

Definition peek_call {DS} (v : peek_variant)
  : M (Connection DS) (option Job) :=
  match v with
  | PeekId jid => Connection.peek jid
  | PeekReady => Connection.peek_ready
  | PeekDelayed => Connection.peek_delayed
  | PeekBuried => Connection.peek_buried
  end.

(** A word: bytes that [split] keeps together. *)
Definition word (w : bytes) : Prop := Forall (fun c => is_space c = false) w.

(** Bytes without a line feed: [readline] does not stop inside them. *)
Definition one_line (w : bytes) : Prop :=
  Forall (fun c => Byte.eqb c LF = false) w.

Definition is_digit (c : byte) : Prop := digit_of c <> None.

(** How far a socket has been used: payloads sent, and faults consumed.
    No I/O call lowers it and [sendall] raises it. *)
Definition io_progress {DS} (t : Transport DS) : Z :=
  Z.of_nat (List.length (sent t)) - Z.of_nat (List.length (faults t)).

(** ** Daemons to run the client against *)

(** The decoder of a connection built with [parse_yaml=False]. *)
Definition no_yaml (body : bytes) : Res document := Ok (DBytes body).

(** A daemon that plays back a script: the n-th payload it receives is
    answered with the n-th entry, and with silence once the script is
    over. *)
Module Scripted.

Definition step (script : list bytes) (_ : bytes) : list bytes * bytes :=
  match script with
  | [] => ([], [])
  | answer :: rest => (rest, answer)
  end.

Definition connect (script : list bytes) (faults : list bool)
  : Connection (list bytes) :=
  mkConnection (mkTransport step script [] [] faults) no_yaml.

(** The same, with an injected decoder. *)
Definition connect_decoding (parse : bytes -> Res document)
    (script : list bytes) : Connection (list bytes) :=
  mkConnection (mkTransport step script [] [] []) parse.

(** A job object whose connection talks to the script. *)
Definition handle (j : Job) (script : list bytes)
  : Job.Handle (list bytes) :=
  Job.mkHandle j (connect script []).

Definition handle_decoding (parse : bytes -> Res document) (j : Job)
    (script : list bytes) : Job.Handle (list bytes) :=
  Job.mkHandle j (connect_decoding parse script).

End Scripted.

(** A decoder that reads every stats document as a job of priority 1024. *)
Definition pri_1024 (_ : bytes) : Res document :=
  Ok (DMap [("state"%string, SStr "reserved"); ("pri"%string, SInt 1024)]).

(** The other end of the wire, for the round trip: a daemon that stores
    and returns jobs faithfully.  It is not part of the client; it speaks
    the [put] and [reserve] rows of the wire protocol.  [put] with no delay
    appends the body to the ready queue under a fresh id and answers
    [INSERTED id]; [reserve] hands out the oldest ready job as
    [RESERVED id bytes], the body and a CRLF.  It delimits the body of a
    [put] by the announced length only. *)
Module Beanstalkd.

Record state : Type := mkState {
  next_id : Z;
  ready : list (Z * bytes);
  delayed : list (Z * bytes);
  held : list (Z * bytes)
}.

Fixpoint number_from (acc : Z) (s : bytes) : option Z :=
  match s with
  | [] => Some acc
  | c :: s' =>
      match digit_of c with
      | Some d => number_from (10 * acc + d) s'
      | None => None
      end
  end.

(** An unsigned decimal number on the command line. *)
Definition number (s : bytes) : option Z :=
  match s with
  | [] => None
  | _ => number_from 0 s
  end.

Definition do_put (st : state) (delay len : Z) (data : bytes)
  : state * bytes :=
  let n := Z.to_nat len in
  let body := firstn n data in
  if negb (Nat.eqb (List.length body) n) then (st, B "BAD_FORMAT" ++ crlf)
  else if negb (bytes_eqb (skipn n data) crlf)
  then (st, B "EXPECTED_CRLF" ++ crlf)
  else
    let id := next_id st in
    let answer := B "INSERTED " ++ fmt_d id ++ crlf in
    if delay =? 0
    then (mkState (id + 1) (ready st ++ [(id, body)]) (delayed st) (held st),
          answer)
    else (mkState (id + 1) (ready st) (delayed st ++ [(id, body)]) (held st),
          answer).

Definition do_reserve (st : state) : state * bytes :=
  match ready st with
  | [] => (st, [])
  | (id, body) :: rest =>
      (mkState (next_id st) rest (delayed st) ((id, body) :: held st),
       B "RESERVED " ++ fmt_d id ++ [SP]
         ++ fmt_d (Z.of_nat (List.length body)) ++ crlf ++ body ++ crlf)
  end.

Definition step (st : state) (payload : bytes) : state * bytes :=
  let (line, data) := take_line payload in
  match split line with
  | [verb; pri; delay; ttr; len] =>
      if bytes_eqb verb (B "put") then
        match number pri, number delay, number ttr, number len with
        | Some _, Some d, Some _, Some n => do_put st d n data
        | _, _, _, _ => (st, B "BAD_FORMAT" ++ crlf)
        end
      else (st, B "UNKNOWN_COMMAND" ++ crlf)
  | [verb] =>
      if bytes_eqb verb (B "reserve") then do_reserve st
      else (st, B "UNKNOWN_COMMAND" ++ crlf)
  | _ => (st, B "UNKNOWN_COMMAND" ++ crlf)
  end.

(** A fresh connection to the daemon in state [st]. *)
Definition connect (st : state) (parse : bytes -> Res document)
  : Connection state :=
  mkConnection (mkTransport step st [] [] []) parse.

(** What [put(body)] with the default priority, delay and time to run
    sends. *)
Definition put_payload (b : bytes) : bytes :=
  B "put 2147483648 0 120 " ++ fmt_d (Z.of_nat (List.length b)) ++ crlf
    ++ b ++ crlf.

(** The daemon after it stored [b] as the only ready job, and after it
    handed that job out. *)
Definition stored (st : state) (b : bytes) : state :=
  mkState (next_id st + 1) [(next_id st, b)] (delayed st) (held st).

Definition handed_out (st : state) (b : bytes) : state :=
  mkState (next_id st + 1) [] (delayed st) ((next_id st, b) :: held st).

Definition after_put (st : state) (b : bytes)
    (parse : bytes -> Res document) : Connection state :=
  mkConnection (mkTransport step (stored st b) [] [put_payload b] []) parse.

Definition after_reserve (st : state) (b : bytes)
    (parse : bytes -> Res document) : Connection state :=
  mkConnection
    (mkTransport step (handed_out st b) []
       [put_payload b; B "reserve" ++ crlf] [])
    parse.

End Beanstalkd.

(** ** Auxiliary definitions for the further properties *)

(** The five verbs answered with a structured document, as one family. *)
Inductive yaml_verb : Type :=
| ListTubes
| ListTubesWatched
| Stats
| StatsTube (name : bytes)
| StatsJob (jid : Z).

Definition yaml_command (v : yaml_verb) : bytes :=
  match v with
  | ListTubes => B "list-tubes" ++ crlf
  | ListTubesWatched => B "list-tubes-watched" ++ crlf
  | Stats => B "stats" ++ crlf
  | StatsTube name => B "stats-tube " ++ name ++ crlf
  | StatsJob jid => B "stats-job " ++ fmt_d jid ++ crlf
  end.

Definition yaml_call {DS} (v : yaml_verb) : M (Connection DS) document :=
  match v with
  | ListTubes => Connection.tubes
  | ListTubesWatched => Connection.watching
  | Stats => Connection.stats
  | StatsTube name => Connection.stats_tube (Bytes name)
  | StatsJob jid => Connection.stats_job jid
  end.

(** CPython converts between [int] and text up to 4300 digits only
    ([sys.get_int_max_str_digits()]); beyond that [int()] and [%d] raise
    [ValueError], which [py_int] and [fmt_d] do not model.  Statements about
    a number taken from or put on the wire are made for tokens within the
    limit. *)
Definition MAX_STR_DIGITS : Z := 4300.

Definition short_number (token : bytes) : Prop :=
  Z.of_nat (List.length token) <= MAX_STR_DIGITS.

(** The largest body a daemon with the default [max-job-size] accepts. *)
Definition DEFAULT_MAX_JOB_SIZE : Z := 65535.

(** What [put] sends for a bytes body. *)
Definition put_command (b : bytes) (priority delay ttr : Z) : bytes :=
  B "put " ++ fmt_d priority ++ [SP] ++ fmt_d delay ++ [SP]
    ++ fmt_d ttr ++ [SP] ++ fmt_d (Z.of_nat (List.length b))
    ++ crlf ++ b ++ crlf.

(** What [Connection.release] and [Connection.bury] send for an integer
    priority. *)
Definition release_command (jid priority delay : Z) : bytes :=
  B "release " ++ fmt_d jid ++ [SP] ++ fmt_d priority ++ [SP]
    ++ fmt_d delay ++ crlf.

Definition bury_command (jid priority : Z) : bytes :=
  B "bury " ++ fmt_d jid ++ [SP] ++ fmt_d priority ++ crlf.

(** * Properties *)

(** ** Running the code on examples *)

Example split_demo :
  split (B "RESERVED 12  5" ++ crlf) = [B "RESERVED"; B "12"; B "5"].
Proof. reflexivity. Qed.

Example py_int_demo :
  (py_int (B "1_000"), py_int (B "-7"), py_int (B "1__0"), py_int (B ""),
   fmt_d 2147483648, fmt_d (-3))
  = (Some 1000, Some (-7), None, None, B "2147483648", B "-3").
Proof. reflexivity. Qed.

Example put_reserve_demo :
  let c0 := Beanstalkd.connect (Beanstalkd.mkState 5 [] [] []) no_yaml in
  let body := B "a b" ++ crlf ++ B "c" in
  let r1 := Connection.put (Bytes body) DEFAULT_PRIORITY 0 DEFAULT_TTR c0 in
  let r2 := Connection.reserve None (snd r1) in
  (fst r1, fst r2, sent (_socket (snd r2)), rbuf (_socket (snd r2)))
  = (Ok 5, Ok (Some (mkJob 5 body true)),
     [B "put 2147483648 0 120 6" ++ crlf ++ body ++ crlf;
      B "reserve" ++ crlf],
     []).
Proof. vm_compute. reflexivity. Qed.

Example delete_twice_demo :
  let h0 := Job.mkHandle (mkJob 7 (B "x") true)
              (Scripted.connect [B "DELETED" ++ crlf; B "NOT_FOUND" ++ crlf] [])
  in
  let r1 := Job.delete h0 in
  let r2 := Job.delete (snd r1) in
  (fst r1, fst r2)
  = (Ok tt, Raise (CommandFailed (B "delete") (B "NOT_FOUND") [])).
Proof. vm_compute. reflexivity. Qed.

(** ** Bytes, tokens and numbers *)

Lemma bytes_eqb_eq (a b : bytes) : bytes_eqb a b = true <-> a = b.
Proof.
  revert b; induction a as [|x a IH]; intros [|y b]; simpl;
    try (split; [discriminate | congruence]).
  - split; reflexivity.
  - rewrite andb_true_iff, IH. split.
    + intros [Hxy ->]. now rewrite (Byte.byte_dec_bl _ _ Hxy).
    + intros [= -> ->]. split; [now apply Byte.byte_dec_lb | reflexivity].
Qed.

Lemma py_in_In (x : bytes) (xs : list bytes) : py_in x xs = true <-> In x xs.
Proof.
  unfold py_in. rewrite existsb_exists. split.
  - intros [y [Hy Heq]]. apply bytes_eqb_eq in Heq. now subst.
  - intros Hin. exists x. split; [assumption | now apply bytes_eqb_eq].
Qed.

Lemma split_from_word (w : bytes) :
  word w -> forall cur rest,
  split_from cur (w ++ rest) = split_from (rev w ++ cur) rest.
Proof.
  induction 1 as [|c w Hc _ IH]; intros cur rest; simpl.
  - reflexivity.
  - rewrite Hc, IH, <- app_assoc. reflexivity.
Qed.

Lemma split_last_word (w : bytes) :
  word w -> w <> [] -> split_from [] (w ++ crlf) = [w].
Proof.
  intros Hw Hne. rewrite split_from_word by assumption.
  rewrite app_nil_r. simpl.
  destruct (rev w) as [|c r] eqn:E.
  - apply (f_equal (@rev byte)) in E. rewrite rev_involutive in E.
    now destruct Hne.
  - rewrite <- E, rev_involutive. reflexivity.
Qed.

Lemma split_inner_word (w rest : bytes) :
  word w -> w <> [] ->
  split_from [] (w ++ SP :: rest) = w :: split_from [] rest.
Proof.
  intros Hw Hne. rewrite split_from_word by assumption.
  rewrite app_nil_r. simpl.
  destruct (rev w) as [|c r] eqn:E.
  - apply (f_equal (@rev byte)) in E. rewrite rev_involutive in E.
    now destruct Hne.
  - rewrite <- E, rev_involutive. reflexivity.
Qed.

Lemma take_line_one_line (h rest : bytes) :
  one_line h -> take_line (h ++ LF :: rest) = (h ++ [LF], rest).
Proof.
  induction 1 as [|c h Hc _ IH]; simpl.
  - reflexivity.
  - rewrite Hc, IH. reflexivity.
Qed.

Lemma lstrip_word (w : bytes) : word w -> lstrip w = w.
Proof. destruct 1 as [|c w Hc _]; simpl; [|rewrite Hc]; reflexivity. Qed.

Lemma strip_word (w : bytes) : word w -> strip w = w.
Proof.
  intros Hw. unfold strip. rewrite (lstrip_word w Hw).
  rewrite lstrip_word, rev_involutive; [reflexivity|].
  unfold word. now apply Forall_rev.
Qed.

Lemma uint_bytes_digits (d : Decimal.uint) : Forall is_digit (uint_bytes d).
Proof.
  induction d; simpl; constructor; try assumption; unfold is_digit; simpl;
    discriminate.
Qed.

Lemma digit_not_space (c : byte) : is_digit c -> is_space c = false.
Proof. unfold is_digit. destruct c; simpl; congruence. Qed.

Lemma digit_not_LF (c : byte) : is_digit c -> Byte.eqb c LF = false.
Proof. unfold is_digit. destruct c; simpl; try congruence; reflexivity. Qed.

Lemma to_uint_not_Nil (p : positive) : Pos.to_uint p <> Decimal.Nil.
Proof.
  intros E. pose proof (DecimalPos.Unsigned.of_to p) as H.
  rewrite E in H. discriminate H.
Qed.

Lemma fmt_d_not_empty (z : Z) : fmt_d z <> [].
Proof.
  unfold fmt_d. destruct z as [|p|p]; simpl; try discriminate.
  pose proof (to_uint_not_Nil p) as H.
  destruct (Pos.to_uint p); simpl; congruence.
Qed.

Lemma fmt_d_word (z : Z) : word (fmt_d z).
Proof.
  unfold fmt_d, word.
  destruct (Z.to_int z) as [d|d]; [|constructor; [reflexivity|]];
    (eapply Forall_impl; [apply digit_not_space | apply uint_bytes_digits]).
Qed.

Lemma fmt_d_one_line (z : Z) : one_line (fmt_d z).
Proof.
  unfold fmt_d, one_line.
  destruct (Z.to_int z) as [d|d]; [|constructor; [reflexivity|]];
    (eapply Forall_impl; [apply digit_not_LF | apply uint_bytes_digits]).
Qed.

Lemma digits_val_acc (d : Decimal.uint) (acc : positive) :
  digits_val (Zpos acc) true (uint_bytes d)
  = Some (Zpos (Pos.of_uint_acc d acc)).
Proof.
  revert acc; induction d; intros acc;
    cbn [digits_val uint_bytes digit_of Pos.of_uint_acc]; try reflexivity;
    rewrite <- IHd; f_equal; lia.
Qed.

Lemma digits_val_uint (d : Decimal.uint) :
  digits_val 0 true (uint_bytes d) = Some (Z.of_N (Pos.of_uint d)).
Proof.
  induction d; simpl; try reflexivity; try assumption;
    apply digits_val_acc.
Qed.

Lemma digits_val_start (d : Decimal.uint) :
  d <> Decimal.Nil ->
  digits_val 0 false (uint_bytes d) = Some (Z.of_N (Pos.of_uint d)).
Proof.
  intros Hd. rewrite <- digits_val_uint.
  destruct d; simpl; congruence.
Qed.

(** Digits never start with a sign. *)
Lemma py_int_digits (d : Decimal.uint) :
  match uint_bytes d with
  | x2b :: ds => digits_val 0 false ds
  | x2d :: ds => option_map Z.opp (digits_val 0 false ds)
  | ds => digits_val 0 false ds
  end = digits_val 0 false (uint_bytes d).
Proof. destruct d; reflexivity. Qed.

(** [int(b'%d' % z) == z] *)
Lemma py_int_fmt_d (z : Z) : py_int (fmt_d z) = Some z.
Proof.
  unfold py_int. rewrite (strip_word _ (fmt_d_word z)).
  unfold fmt_d. destruct z as [|p|p]; simpl Z.to_int; cbv iota.
  - reflexivity.
  - rewrite py_int_digits.
    rewrite digits_val_start by apply to_uint_not_Nil.
    now rewrite DecimalPos.Unsigned.of_to.
  - rewrite digits_val_start by apply to_uint_not_Nil.
    now rewrite DecimalPos.Unsigned.of_to.
Qed.

Lemma number_from_acc (d : Decimal.uint) (acc : positive) :
  Beanstalkd.number_from (Zpos acc) (uint_bytes d)
  = Some (Zpos (Pos.of_uint_acc d acc)).
Proof.
  revert acc; induction d; intros acc;
    cbn [Beanstalkd.number_from uint_bytes digit_of Pos.of_uint_acc];
    try reflexivity; rewrite <- IHd; f_equal; lia.
Qed.

Lemma number_from_uint (d : Decimal.uint) :
  Beanstalkd.number_from 0 (uint_bytes d) = Some (Z.of_N (Pos.of_uint d)).
Proof.
  induction d; simpl; try reflexivity; try assumption;
    apply number_from_acc.
Qed.

Lemma number_fmt_d (z : Z) : 0 <= z -> Beanstalkd.number (fmt_d z) = Some z.
Proof.
  intros Hz. unfold Beanstalkd.number.
  pose proof (fmt_d_not_empty z) as Hne.
  destruct (fmt_d z) eqn:E; [congruence|]. rewrite <- E. clear E Hne.
  unfold fmt_d. destruct z as [|p|p]; simpl Z.to_int; cbv iota.
  - reflexivity.
  - rewrite number_from_uint. now rewrite DecimalPos.Unsigned.of_to.
  - lia.
Qed.

(** ** The dispatcher *)

Section Dispatcher.

Context {DS : Type}.
Implicit Types (c : Connection DS) (command status verb : bytes).
Implicit Types (results ok err : list bytes).

(** After the exchange, [_interact] is the dispatch on the status token,
    run on the state the exchange left. *)
Lemma interact_after_exchange c command ok err status results :
  fst (exchange command c) = Ok (status, results) ->
  Connection._interact command ok err c
  = (if py_in status ok then ret results
     else if py_in status err then
       verb <- item0 (split command) ;;
       raise (CommandFailed verb status results)
     else
       verb <- item0 (split command) ;;
       raise (UnexpectedResponse verb status results))
      (snd (exchange command c)).
Proof.
  unfold exchange, Connection._interact, bind.
  destruct (on_socket (SocketError_wrap (sendall command)) c) as [[[]|e] c1];
    simpl; [|discriminate].
  destruct (Connection._read_response c1) as [[[st rs]|e] c2]; simpl;
    [|discriminate].
  intros [= -> ->]. reflexivity.
Qed.

(** When the exchange itself fails, [_interact] fails the same way. *)
Lemma interact_exchange_fails c command ok err e :
  fst (exchange command c) = Raise e ->
  Connection._interact command ok err c = (Raise e, snd (exchange command c)).
Proof.
  unfold exchange, Connection._interact, bind.
  destruct (on_socket (SocketError_wrap (sendall command)) c) as [[[]|e1] c1];
    simpl; [|now intros [= ->]].
  destruct (Connection._read_response c1) as [[[st rs]|e2] c2]; simpl;
    [discriminate | now intros [= ->]].
Qed.

Lemma interact_ok c command ok err status results :
  fst (exchange command c) = Ok (status, results) ->
  py_in status ok = true ->
  Connection._interact command ok err c
  = (Ok results, snd (exchange command c)).
Proof.
  intros Hx Hok. rewrite (interact_after_exchange _ _ _ _ _ _ Hx), Hok.
  reflexivity.
Qed.

Lemma interact_failed c command ok err status results verb rest :
  fst (exchange command c) = Ok (status, results) ->
  py_in status ok = false ->
  py_in status err = true ->
  split command = verb :: rest ->
  Connection._interact command ok err c
  = (Raise (CommandFailed verb status results), snd (exchange command c)).
Proof.
  intros Hx Hok Herr Hv.
  rewrite (interact_after_exchange _ _ _ _ _ _ Hx), Hok, Herr.
  unfold bind. rewrite Hv. reflexivity.
Qed.

Lemma interact_unexpected c command ok err status results verb rest :
  fst (exchange command c) = Ok (status, results) ->
  py_in status ok = false ->
  py_in status err = false ->
  split command = verb :: rest ->
  Connection._interact command ok err c
  = (Raise (UnexpectedResponse verb status results),
     snd (exchange command c)).
Proof.
  intros Hx Hok Herr Hv.
  rewrite (interact_after_exchange _ _ _ _ _ _ Hx), Hok, Herr.
  unfold bind. rewrite Hv. reflexivity.
Qed.

(** A command without any token has no verb to report: a status outside
    the success set then ends in the [IndexError] of [command.split()[0]]. *)
Lemma interact_no_verb c command ok err status results :
  fst (exchange command c) = Ok (status, results) ->
  py_in status ok = false ->
  split command = [] ->
  Connection._interact command ok err c
  = (Raise IndexError, snd (exchange command c)).
Proof.
  intros Hx Hok Hv.
  rewrite (interact_after_exchange _ _ _ _ _ _ Hx), Hok.
  unfold bind. rewrite Hv. now destruct (py_in status err).
Qed.

(** C1. For every command and every pair of declared status sets: once
    the command is sent and one status line is read, [_interact] returns
    the argument tokens when the status token is in the success set;
    otherwise raises [CommandFailed] carrying (verb, status, arguments)
    when the status token is in the failure set; and raises
    [UnexpectedResponse] carrying the same triple in every other case.  The
    verb is the first token of the command, and the connection is left as
    the exchange left it. *)
Theorem interact_dispatch c command ok err status results :
  fst (exchange command c) = Ok (status, results) ->
  (In status ok ->
   Connection._interact command ok err c
   = (Ok results, snd (exchange command c)))
  /\
  (forall verb rest, split command = verb :: rest ->
   ~ In status ok -> In status err ->
   Connection._interact command ok err c
   = (Raise (CommandFailed verb status results), snd (exchange command c)))
  /\
  (forall verb rest, split command = verb :: rest ->
   ~ In status ok -> ~ In status err ->
   Connection._interact command ok err c
   = (Raise (UnexpectedResponse verb status results),
      snd (exchange command c))).
Proof.
  intros Hx. repeat split.
  - intros Hok. apply py_in_In in Hok.
    now apply interact_ok with (status := status).
  - intros verb rest Hv Hok Herr.
    apply py_in_In in Herr.
    apply interact_failed with (rest := rest); try assumption.
    destruct (py_in status ok) eqn:E; [|reflexivity].
    now apply py_in_In in E.
  - intros verb rest Hv Hok Herr.
    apply interact_unexpected with (rest := rest); try assumption.
    + destruct (py_in status ok) eqn:E; [|reflexivity].
      now apply py_in_In in E.
    + destruct (py_in status err) eqn:E; [|reflexivity].
      now apply py_in_In in E.
Qed.

End Dispatcher.

Lemma interact_dispatch_witness :
  (Connection._interact (B "delete 7" ++ crlf) [B "DELETED"] [B "NOT_FOUND"]
     (Scripted.connect [B "DELETED" ++ crlf] [])
   = (Ok [],
      snd (exchange (B "delete 7" ++ crlf)
             (Scripted.connect [B "DELETED" ++ crlf] []))))
  /\
  (Connection._interact (B "delete 7" ++ crlf) [B "DELETED"] [B "NOT_FOUND"]
     (Scripted.connect [B "NOT_FOUND" ++ crlf] [])
   = (Raise (CommandFailed (B "delete") (B "NOT_FOUND") []),
      snd (exchange (B "delete 7" ++ crlf)
             (Scripted.connect [B "NOT_FOUND" ++ crlf] []))))
  /\
  (Connection._interact (B "delete 7" ++ crlf) [B "DELETED"] [B "NOT_FOUND"]
     (Scripted.connect [B "OUT_OF_MEMORY" ++ crlf] [])
   = (Raise (UnexpectedResponse (B "delete") (B "OUT_OF_MEMORY") []),
      snd (exchange (B "delete 7" ++ crlf)
             (Scripted.connect [B "OUT_OF_MEMORY" ++ crlf] [])))).
Proof.
  split; [|split].
  - apply (proj1 (interact_dispatch
                    (Scripted.connect [B "DELETED" ++ crlf] [])
                    (B "delete 7" ++ crlf) [B "DELETED"] [B "NOT_FOUND"]
                    (B "DELETED") [] eq_refl)).
    simpl. left. reflexivity.
  - apply (proj1 (proj2 (interact_dispatch
                    (Scripted.connect [B "NOT_FOUND" ++ crlf] [])
                    (B "delete 7" ++ crlf) [B "DELETED"] [B "NOT_FOUND"]
                    (B "NOT_FOUND") [] eq_refl)) (B "delete") [B "7"]).
    + reflexivity.
    + simpl. intros [H|[]]. discriminate H.
    + simpl. left. reflexivity.
  - apply (proj2 (proj2 (interact_dispatch
                    (Scripted.connect [B "OUT_OF_MEMORY" ++ crlf] [])
                    (B "delete 7" ++ crlf) [B "DELETED"] [B "NOT_FOUND"]
                    (B "OUT_OF_MEMORY") [] eq_refl)) (B "delete") [B "7"]).
    + reflexivity.
    + simpl. intros [H|[]]. discriminate H.
    + simpl. intros [H|[]]. discriminate H.
Defined.

(** ** The verbs that downgrade a declared failure *)

Section Verbs.

Context {DS : Type}.
Implicit Types (c : Connection DS) (command status verb : bytes).
Implicit Types (results ok err : list bytes).

Lemma interact_job_raises c c' command ok err flag e :
  Connection._interact command ok err c = (Raise e, c') ->
  Connection._interact_job command ok err flag c = (Raise e, c').
Proof. intros H. unfold Connection._interact_job, bind. now rewrite H. Qed.

Lemma interact_value_raises c c' command ok err e :
  Connection._interact command ok err c = (Raise e, c') ->
  Connection._interact_value command ok err c = (Raise e, c').
Proof. intros H. unfold Connection._interact_value, bind. now rewrite H. Qed.

Lemma reserve_command_verb timeout :
  exists verb rest, split (Connection.reserve_command timeout) = verb :: rest.
Proof. destruct timeout; eexists; eexists; reflexivity. Qed.

Lemma peek_command_verb (v : peek_variant) :
  exists verb rest, split (peek_command v) = verb :: rest.
Proof. destruct v; eexists; eexists; reflexivity. Qed.

Lemma ignore_command_verb (name : bytes) :
  split (B "ignore " ++ name ++ crlf)
  = B "ignore" :: split_from [] (name ++ crlf).
Proof.
  change (B "ignore " ++ name ++ crlf)
    with (B "ignore" ++ SP :: (name ++ crlf)).
  unfold split. rewrite split_inner_word;
    [reflexivity | repeat constructor | discriminate].
Qed.

(** C2. For every call to [reserve], with or without a timeout: if the
    daemon answers with status [TIMED_OUT], [reserve] returns [None] and
    raises nothing; if it answers with status [DEADLINE_SOON], [reserve]
    raises [DeadlineSoon] carrying the response arguments. *)
Theorem reserve_timed_out_deadline_soon c (timeout : option Z) results :
  (fst (exchange (Connection.reserve_command timeout) c)
   = Ok (B "TIMED_OUT", results) ->
   Connection.reserve timeout c
   = (Ok None, snd (exchange (Connection.reserve_command timeout) c)))
  /\
  (fst (exchange (Connection.reserve_command timeout) c)
   = Ok (B "DEADLINE_SOON", results) ->
   Connection.reserve timeout c
   = (Raise (DeadlineSoon results),
      snd (exchange (Connection.reserve_command timeout) c))).
Proof.
  destruct (reserve_command_verb timeout) as [verb [rest Hv]].
  split; intros Hx; unfold Connection.reserve, except_CommandFailed, bind;
    rewrite (interact_job_raises _ _ _ _ _ true _
               (interact_failed c _ [B "RESERVED"]
                  [B "DEADLINE_SOON"; B "TIMED_OUT"] _ _ verb rest
                  Hx eq_refl eq_refl Hv));
    reflexivity.
Qed.

(** C8. For every call to [ignore(name)] with a bytes name: if the server
    answers [NOT_IGNORED], the failure is suppressed and the call returns
    1; if it answers [WATCHING count], the call returns that count. *)
Theorem ignore_not_ignored_returns_one c (name : bytes) results :
  (fst (exchange (B "ignore " ++ name ++ crlf) c)
   = Ok (B "NOT_IGNORED", results) ->
   Connection.ignore (Bytes name) c
   = (Ok 1, snd (exchange (B "ignore " ++ name ++ crlf) c)))
  /\
  (forall count rest n,
   fst (exchange (B "ignore " ++ name ++ crlf) c)
   = Ok (B "WATCHING", count :: rest) ->
   py_int count = Some n ->
   Connection.ignore (Bytes name) c
   = (Ok n, snd (exchange (B "ignore " ++ name ++ crlf) c))).
Proof.
  split.
  - intros Hx. unfold Connection.ignore, except_CommandFailed, bind.
    rewrite (interact_value_raises _ _ _ _ _ _
               (interact_failed c _ [B "WATCHING"] [B "NOT_IGNORED"] _ _ _ _
                  Hx eq_refl eq_refl (ignore_command_verb name))).
    reflexivity.
  - intros count rest n Hx Hn.
    unfold Connection.ignore, except_CommandFailed, bind,
      Connection._interact_value, bind.
    rewrite (interact_ok c _ [B "WATCHING"] [B "NOT_IGNORED"] (B "WATCHING")
               (count :: rest) Hx eq_refl).
    unfold item0, ret, int_. rewrite Hn. reflexivity.
Qed.

(** No peek call ends in [CommandFailed]. *)
Lemma interact_peek_never_CommandFailed c command verb status results :
  fst (Connection._interact_peek command c)
  <> Raise (CommandFailed verb status results).
Proof.
  unfold Connection._interact_peek, except_CommandFailed, bind.
  destruct (Connection._interact_job command _ _ false c) as [[j|e] c1];
    simpl; [discriminate|].
  destruct e; simpl; discriminate.
Qed.

Lemma interact_peek_not_reserved c command (j : Job) :
  fst (Connection._interact_peek command c) = Ok (Some j) ->
  reserved j = false.
Proof.
  unfold Connection._interact_peek, except_CommandFailed, bind,
    Connection._interact_job, bind.
  destruct (Connection._interact command _ _ c) as [[rs|e] c1]; simpl.
  - destruct rs as [|jt [|st [|x rs]]]; simpl; try discriminate.
    unfold int_. destruct (py_int st) as [n|]; simpl; [|discriminate].
    destruct (Connection._read_body n c1) as [[b|e] c2]; simpl.
    + destruct (py_int jt) as [i|]; simpl; [|discriminate].
      now intros [= <-].
    + destruct e; simpl; discriminate.
  - destruct e; simpl; discriminate.
Qed.

Lemma peek_call_is_interact_peek (v : peek_variant) :
  @peek_call DS v = Connection._interact_peek (peek_command v).
Proof. destruct v; reflexivity. Qed.

(** C9. For every peek variant (by id, ready, delayed, buried): a
    [NOT_FOUND] answer yields [None]; the call never ends in
    [CommandFailed], whatever the daemon does; a [FOUND id bytes] answer whose body can be read
    yields a [Job] with that id and body whose [reserved] flag is false;
    and whenever a peek yields a [Job], its [reserved] flag is false. *)
Theorem peek_not_found_is_none c (v : peek_variant) :
  (forall results,
   fst (exchange (peek_command v) c) = Ok (B "NOT_FOUND", results) ->
   peek_call v c = (Ok None, snd (exchange (peek_command v) c)))
  /\
  (forall verb status results,
   fst (peek_call v c) <> Raise (CommandFailed verb status results))
  /\
  (forall id size i n data,
   fst (exchange (peek_command v) c) = Ok (B "FOUND", [id; size]) ->
   py_int size = Some n ->
   py_int id = Some i ->
   fst (Connection._read_body n (snd (exchange (peek_command v) c)))
   = Ok data ->
   peek_call v c
   = (Ok (Some (mkJob i data false)),
      snd (Connection._read_body n (snd (exchange (peek_command v) c)))))
  /\
  (forall j, fst (peek_call v c) = Ok (Some j) -> reserved j = false).
Proof.
  rewrite peek_call_is_interact_peek.
  destruct (peek_command_verb v) as [verb [rest Hv]].
  repeat split.
  - intros results Hx.
    unfold Connection._interact_peek, except_CommandFailed, bind.
    rewrite (interact_job_raises _ _ _ _ _ false _
               (interact_failed c _ [B "FOUND"] [B "NOT_FOUND"] _ _ verb rest
                  Hx eq_refl eq_refl Hv)).
    reflexivity.
  - intros. apply interact_peek_never_CommandFailed.
  - intros id size i n data Hx Hn Hi Hb.
    unfold Connection._interact_peek, except_CommandFailed, bind,
      Connection._interact_job, bind.
    rewrite (interact_ok c _ [B "FOUND"] [B "NOT_FOUND"] (B "FOUND")
               [id; size] Hx eq_refl).
    unfold int_. rewrite Hn. unfold ret at 1.
    destruct (Connection._read_body n (snd (exchange (peek_command v) c)))
      as [r c2].
    simpl in Hb. subst r. rewrite Hi. reflexivity.
  - apply interact_peek_not_reserved.
Qed.

End Verbs.

(** ** Reading a body *)

Section Body.

Context {DS : Type}.
Implicit Types (c : Connection DS).

(** C3, as the code has it.  When the declared body length is greater than
    0 and the body read returns no bytes, the body-reading step fails with
    a transport error; with a declared length of 0 an empty body read is
    not an error, and the step returns the empty body once the trailer is
    read. *)
Theorem read_body_empty_read c (size : Z) :
  (0 < size ->
   fst (on_socket (SocketError_wrap (read size)) c) = Ok [] ->
   exists wrapped,
     fst (Connection._read_body size c) = Raise (SocketError wrapped))
  /\
  (forall trailer,
   fst (on_socket (SocketError_wrap (read 0)) c) = Ok [] ->
   fst (on_socket (SocketError_wrap (read 2))
          (snd (on_socket (SocketError_wrap (read 0)) c))) = Ok trailer ->
   fst (Connection._read_body 0 c) = Ok []).
Proof.
  split.
  - intros Hsize Hread. unfold Connection._read_body, bind.
    destruct (on_socket (SocketError_wrap (read size)) c) as [r c1].
    simpl in Hread. subst r.
    assert (Hpos : (0 <? size) = true) by now apply Z.ltb_lt.
    rewrite Hpos. simpl.
    unfold on_socket, SocketError_wrap, read. simpl.
    destruct (io_call (_socket c1)) as [[|] t1]; simpl.
    + now exists true.
    + now exists false.
  - intros trailer Hread Htrail. unfold Connection._read_body, bind.
    destruct (on_socket (SocketError_wrap (read 0)) c) as [r c1].
    simpl in Hread, Htrail. subst r.
    destruct (on_socket (SocketError_wrap (read 2)) c1) as [r2 c2].
    simpl in Htrail. subst r2. reflexivity.
Qed.

End Body.

(** C3 as stated fails: a declared length of 0 whose body read returns no
    bytes gives the empty body, not a transport error.  Here the stream
    holds just the trailer. *)
Lemma read_body_zero_length_counterexample :
  fst (on_socket (SocketError_wrap (read 0))
         (mkConnection (mkTransport Scripted.step [] crlf [] []) no_yaml))
  = Ok []
  /\
  Connection._read_body 0
    (mkConnection (mkTransport Scripted.step [] crlf [] []) no_yaml)
  = (Ok [], mkConnection (mkTransport Scripted.step [] [] [] []) no_yaml).
Proof. split; reflexivity. Qed.

Lemma read_body_empty_read_witness :
  (exists wrapped,
     fst (Connection._read_body 5 (Scripted.connect [] []))
     = Raise (SocketError wrapped))
  /\
  fst (Connection._read_body 0
         (mkConnection (mkTransport Scripted.step [] crlf [] []) no_yaml))
  = Ok [].
Proof.
  split.
  - apply (proj1 (read_body_empty_read (Scripted.connect [] []) 5)).
    + lia.
    + reflexivity.
  - apply (proj2 (read_body_empty_read
                    (mkConnection (mkTransport Scripted.step [] crlf [] [])
                       no_yaml) 0) crlf).
    + reflexivity.
    + reflexivity.
Defined.

(** ** The socket only moves forward *)

Section Progress.

Context {DS : Type}.
Implicit Types (t : Transport DS) (c : Connection DS).

Lemma io_call_progress t :
  io_progress t <= io_progress (snd (io_call t))
  /\ (fst (io_call t) = true -> io_progress t < io_progress (snd (io_call t))).
Proof.
  unfold io_call, io_progress.
  destruct (faults t) as [|f fs] eqn:E; cbn [fst snd faults sent].
  - rewrite E. split; [lia | discriminate].
  - cbn [List.length]. split; intros; lia.
Qed.

Lemma sendall_progress t (data : bytes) :
  io_progress t < io_progress (snd (SocketError_wrap (sendall data) t)).
Proof.
  unfold SocketError_wrap, sendall.
  pose proof (io_call_progress t) as [Hle Hlt].
  destruct (io_call t) as [[|] t1]; simpl in *.
  - now apply Hlt.
  - destruct (peer_step t1 (peer_state t1) data) as [d' answer]. simpl.
    unfold io_progress in *. simpl. rewrite length_app. simpl. lia.
Qed.

Lemma readline_progress t :
  io_progress t <= io_progress (snd (SocketError_wrap readline t)).
Proof.
  unfold SocketError_wrap, readline.
  pose proof (io_call_progress t) as [Hle _].
  destruct (io_call t) as [[|] t1]; simpl in *; [assumption|].
  destruct (take_line (rbuf t1)) as [line rest]. simpl. exact Hle.
Qed.

Lemma read_response_progress c :
  io_progress (_socket c)
  <= io_progress (_socket (snd (Connection._read_response c))).
Proof.
  unfold Connection._read_response, bind, on_socket.
  pose proof (readline_progress (_socket c)) as H.
  destruct (SocketError_wrap readline (_socket c)) as [[line|e] t1];
    simpl in *; [|assumption].
  destruct line as [|x line]; simpl; [assumption|].
  destruct (split (x :: line)); simpl; assumption.
Qed.

(** Every [_interact] is visible on the socket: a payload was sent or a
    scheduled fault was consumed. *)
Lemma interact_progress c (command : bytes) (ok err : list bytes) :
  io_progress (_socket c)
  < io_progress (_socket (snd (Connection._interact command ok err c))).
Proof.
  unfold Connection._interact, bind, on_socket at 1.
  pose proof (sendall_progress (_socket c) command) as H.
  destruct (SocketError_wrap (sendall command) (_socket c)) as [[[]|e] t1];
    simpl in *; [|assumption].
  pose proof (read_response_progress (mkConnection t1 (_parse_yaml c))) as H1.
  destruct (Connection._read_response (mkConnection t1 (_parse_yaml c)))
    as [[[status results]|e] c2]; simpl in *; [|lia].
  destruct (py_in status ok); simpl; [lia|].
  destruct (py_in status err); unfold item0;
    destruct (split command); simpl; lia.
Qed.

Lemma Connection_delete_progress c (j : Z) :
  io_progress (_socket c)
  < io_progress (_socket (snd (Connection.delete j c))).
Proof.
  unfold Connection.delete, bind.
  pose proof (interact_progress c (B "delete " ++ fmt_d j ++ crlf)
                [B "DELETED"] [B "NOT_FOUND"]) as H.
  destruct (Connection._interact _ _ _ c) as [[rs|e] c1]; exact H.
Qed.

End Progress.

(** ** Job handles *)

Section JobHandles.

Context {DS : Type}.
Implicit Types (h : Job.Handle DS) (c : Connection DS).

Lemma on_conn_self {A} (m : M (Connection DS) A) h :
  Job.self (snd (Job.on_conn m h)) = Job.self h.
Proof. unfold Job.on_conn. now destruct (m (Job.conn h)). Qed.

Lemma priority_self h :
  Job.self (snd (Job._priority h)) = Job.self h.
Proof.
  unfold Job._priority, Job.stats, bind, Job.get_self.
  pose proof (on_conn_self (Connection.stats_job (jid (Job.self h))) h)
    as H.
  destruct (Job.on_conn _ h) as [[d|e] h1]; simpl in *; [|assumption].
  destruct d as [entries| |]; simpl; try assumption.
  destruct (dict_get "pri" entries); simpl; assumption.
Qed.

Lemma priority_or_self h (priority : option Z) :
  Job.self (snd (Job.priority_or priority Job._priority h))
  = Job.self h.
Proof.
  unfold Job.priority_or. destruct priority as [p|].
  - destruct (p =? 0); [apply priority_self | reflexivity].
  - apply priority_self.
Qed.

(** A method of the shape "look up, delegate, then clear the flag" leaves
    the job as it was whenever it raises. *)
Lemma delegate_then_clear_raises {A} (m : M (Job.Handle DS) A) h h' e :
  (forall h0, Job.self (snd (m h0)) = Job.self h0) ->
  (m ;;; Job.set_reserved false) h = (Raise e, h') ->
  Job.self h' = Job.self h.
Proof.
  intros Hm. unfold bind. specialize (Hm h).
  destruct (m h) as [[a|e1] h1]; simpl in *.
  - discriminate.
  - now intros [= _ <-].
Qed.

(** C10. For every Job: when the Connection call that [Job.delete],
    [Job.release] or [Job.bury] delegates to raises a condition, the Job
    method raises that same condition and the job object is as it was
    before the call, its [reserved] flag included; for [release] and
    [bury] the delegated call is the one made on a reserved job with the
    priority that was given or looked up.  More generally, whenever one of
    the three methods raises, for whatever reason, the job object is
    unchanged: the flag is cleared only after the delegated call has
    returned. *)
Theorem job_unchanged_when_call_raises h h' (e : exn) :
  (Job.delete h = (Raise e, h') -> Job.self h' = Job.self h)
  /\
  (forall priority delay,
   Job.release priority delay h = (Raise e, h') ->
   Job.self h' = Job.self h)
  /\
  (forall priority,
   Job.bury priority h = (Raise e, h') ->
   Job.self h' = Job.self h)
  /\
  (fst (Connection.delete (jid (Job.self h)) (Job.conn h)) = Raise e ->
   Job.delete h
   = (Raise e,
      Job.mkHandle (Job.self h)
        (snd (Connection.delete (jid (Job.self h)) (Job.conn h)))))
  /\
  (forall priority delay pri h1,
   reserved (Job.self h) = true ->
   Job.priority_or priority Job._priority h = (Ok pri, h1) ->
   fst (Connection.release (jid (Job.self h)) pri delay (Job.conn h1))
   = Raise e ->
   Job.release priority delay h
   = (Raise e,
      Job.mkHandle (Job.self h)
        (snd (Connection.release (jid (Job.self h)) pri delay
                (Job.conn h1)))))
  /\
  (forall priority pri h1,
   reserved (Job.self h) = true ->
   Job.priority_or priority Job._priority h = (Ok pri, h1) ->
   fst (Connection.bury (jid (Job.self h)) pri (Job.conn h1)) = Raise e ->
   Job.bury priority h
   = (Raise e,
      Job.mkHandle (Job.self h)
        (snd (Connection.bury (jid (Job.self h)) pri (Job.conn h1))))).
Proof.
  split; [|split; [|split; [|split; [|split]]]].
  - unfold Job.delete, bind at 1, Job.get_self.
    apply delegate_then_clear_raises. intros h0. apply on_conn_self.
  - intros priority delay. unfold Job.release, bind at 1, Job.get_self.
    destruct (reserved (Job.self h)); [|discriminate].
    unfold bind.
    pose proof (priority_or_self h priority) as Hp.
    destruct (Job.priority_or priority Job._priority h) as [[p|e1] h1];
      simpl in *.
    + pose proof (on_conn_self
                    (Connection.release (jid (Job.self h)) p delay) h1)
        as Hc.
      destruct (Job.on_conn _ h1) as [[[]|e2] h2]; simpl in *.
      * discriminate.
      * intros [= _ <-]. congruence.
    + intros [= _ <-]. assumption.
  - intros priority. unfold Job.bury, bind at 1, Job.get_self.
    destruct (reserved (Job.self h)); [|discriminate].
    unfold bind.
    pose proof (priority_or_self h priority) as Hp.
    destruct (Job.priority_or priority Job._priority h) as [[p|e1] h1];
      simpl in *.
    + pose proof (on_conn_self
                    (Connection.bury (jid (Job.self h)) p) h1) as Hc.
      destruct (Job.on_conn _ h1) as [[[]|e2] h2]; simpl in *.
      * discriminate.
      * intros [= _ <-]. congruence.
    + intros [= _ <-]. assumption.
  - intros H. unfold Job.delete, bind, Job.get_self, Job.on_conn.
    destruct (Connection.delete (jid (Job.self h)) (Job.conn h))
      as [r c1].
    simpl in H. subst r. reflexivity.
  - intros priority delay pri h1 Hr Hpri H.
    pose proof (priority_or_self h priority) as Hs.
    rewrite Hpri in Hs. simpl in Hs.
    unfold Job.release, bind, Job.get_self. rewrite Hr, Hpri.
    unfold Job.on_conn.
    destruct (Connection.release (jid (Job.self h)) pri delay (Job.conn h1))
      as [r c1].
    simpl in H. subst r. now rewrite Hs.
  - intros priority pri h1 Hr Hpri H.
    pose proof (priority_or_self h priority) as Hs.
    rewrite Hpri in Hs. simpl in Hs.
    unfold Job.bury, bind, Job.get_self. rewrite Hr, Hpri.
    unfold Job.on_conn.
    destruct (Connection.bury (jid (Job.self h)) pri (Job.conn h1))
      as [r c1].
    simpl in H. subst r. now rewrite Hs.
Qed.

End JobHandles.

Section JobLifecycle.

Context {DS : Type}.
Implicit Types (h : Job.Handle DS) (c : Connection DS).

Lemma release_not_reserved h (priority : option Z) (delay : Z) :
  reserved (Job.self h) = false ->
  Job.release priority delay h = (Ok tt, h).
Proof.
  intros Hr. unfold Job.release, bind, Job.get_self.
  now rewrite Hr.
Qed.

Lemma bury_not_reserved h (priority : option Z) :
  reserved (Job.self h) = false ->
  Job.bury priority h = (Ok tt, h).
Proof.
  intros Hr. unfold Job.bury, bind, Job.get_self.
  now rewrite Hr.
Qed.

Lemma touch_not_reserved h :
  reserved (Job.self h) = false -> Job.touch h = (Ok tt, h).
Proof.
  intros Hr. unfold Job.touch, bind, Job.get_self.
  now rewrite Hr.
Qed.

Lemma delete_returns h h1 :
  Job.delete h = (Ok tt, h1) ->
  fst (Connection.delete (jid (Job.self h)) (Job.conn h)) = Ok tt
  /\ h1 = Job.mkHandle
            (mkJob (jid (Job.self h)) (body (Job.self h)) false)
            (snd (Connection.delete (jid (Job.self h)) (Job.conn h))).
Proof.
  unfold Job.delete, bind, Job.get_self, Job.on_conn,
    Job.set_reserved.
  destruct (Connection.delete (jid (Job.self h)) (Job.conn h))
    as [[[]|e] c1]; simpl; [|discriminate].
  intros [= <-]. split; reflexivity.
Qed.

(** C5. For every Job whose [reserved] flag is false, [release], [bury]
    and [touch] return at once: the job and the connection are exactly as
    before, so no Connection call was made.  [delete] delegates to
    [Connection.delete] whatever the flag is: it ends as that call ends,
    on the connection that call leaves, which shows the call on its
    socket.  [touch] on a reserved job delegates to [Connection.touch] and
    leaves the job, its [reserved] flag included, unchanged. *)
Theorem job_noops_and_delegates h :
  (reserved (Job.self h) = false ->
   (forall priority delay, Job.release priority delay h = (Ok tt, h))
   /\ (forall priority, Job.bury priority h = (Ok tt, h))
   /\ Job.touch h = (Ok tt, h))
  /\
  ((forall e,
    fst (Connection.delete (jid (Job.self h)) (Job.conn h)) = Raise e ->
    fst (Job.delete h) = Raise e)
   /\ (fst (Connection.delete (jid (Job.self h)) (Job.conn h)) = Ok tt ->
       fst (Job.delete h) = Ok tt)
   /\ Job.conn (snd (Job.delete h))
      = snd (Connection.delete (jid (Job.self h)) (Job.conn h))
   /\ io_progress (_socket (Job.conn h))
      < io_progress (_socket (Job.conn (snd (Job.delete h)))))
  /\
  (reserved (Job.self h) = true ->
   Job.touch h
   = (fst (Connection.touch (jid (Job.self h)) (Job.conn h)),
      Job.mkHandle (Job.self h)
        (snd (Connection.touch (jid (Job.self h)) (Job.conn h))))).
Proof.
  split; [|split].
  - intros Hr. repeat split; intros.
    + now apply release_not_reserved.
    + now apply bury_not_reserved.
    + now apply touch_not_reserved.
  - assert (Hc : Job.conn (snd (Job.delete h))
                 = snd (Connection.delete (jid (Job.self h))
                          (Job.conn h))).
    { unfold Job.delete, bind, Job.get_self, Job.on_conn.
      now destruct (Connection.delete _ (Job.conn h)) as [[[]|e] c1]. }
    repeat split.
    + intros e. unfold Job.delete, bind, Job.get_self, Job.on_conn.
      destruct (Connection.delete _ (Job.conn h)) as [[[]|e1] c1];
        simpl; [discriminate | trivial].
    + unfold Job.delete, bind, Job.get_self, Job.on_conn.
      destruct (Connection.delete _ (Job.conn h)) as [[[]|e1] c1];
        simpl; [trivial | discriminate].
    + exact Hc.
    + rewrite Hc. apply Connection_delete_progress.
  - intros Hr. unfold Job.touch, bind, Job.get_self, Job.on_conn.
    rewrite Hr.
    now destruct (Connection.touch _ (Job.conn h)) as [r c1].
Qed.

Lemma delete_command_verb (j : Z) :
  split (B "delete " ++ fmt_d j ++ crlf)
  = B "delete" :: split_from [] (fmt_d j ++ crlf).
Proof. reflexivity. Qed.

(** A second [delete] is a [Connection.delete] like the first. *)
Lemma delete_not_found h results :
  fst (exchange (B "delete " ++ fmt_d (jid (Job.self h)) ++ crlf)
         (Job.conn h))
  = Ok (B "NOT_FOUND", results) ->
  fst (Job.delete h)
  = Raise (CommandFailed (B "delete") (B "NOT_FOUND") results).
Proof.
  intros Hx.
  unfold Job.delete, bind, Job.get_self, Job.on_conn,
    Connection.delete, bind.
  rewrite (interact_failed _ _ [B "DELETED"] [B "NOT_FOUND"] _ _ _ _
             Hx eq_refl eq_refl (delete_command_verb _)).
  reflexivity.
Qed.

(** C6, as the code has it.  For every Job on which [delete] has returned:
    the [reserved] flag is false, so further [release], [bury] and [touch]
    calls on that Job make no Connection call and raise nothing; a second
    [delete] delegates again, and a [NOT_FOUND] answer to it is raised by
    the Job method as [CommandFailed], as by the direct Connection
    call. *)
Theorem after_delete_further_calls h h1 :
  Job.delete h = (Ok tt, h1) ->
  reserved (Job.self h1) = false
  /\ (forall priority delay, Job.release priority delay h1 = (Ok tt, h1))
  /\ (forall priority, Job.bury priority h1 = (Ok tt, h1))
  /\ Job.touch h1 = (Ok tt, h1)
  /\ (forall results,
      fst (exchange (B "delete " ++ fmt_d (jid (Job.self h1)) ++ crlf)
             (Job.conn h1))
      = Ok (B "NOT_FOUND", results) ->
      fst (Job.delete h1)
      = Raise (CommandFailed (B "delete") (B "NOT_FOUND") results)).
Proof.
  intros Hd. apply delete_returns in Hd as [_ ->].
  split; [reflexivity|].
  split; [intros; now apply release_not_reserved|].
  split; [intros; now apply bury_not_reserved|].
  split; [now apply touch_not_reserved|].
  intros results. apply delete_not_found.
Qed.

(** [release] with priority 0 is [release] with the priority omitted. *)
Lemma release_zero_is_omitted h (delay : Z) :
  Job.release (Some 0) delay h = Job.release None delay h.
Proof. reflexivity. Qed.

Lemma bury_zero_is_omitted h :
  Job.bury (Some 0) h = Job.bury None h.
Proof. reflexivity. Qed.

(** A priority other than 0 is sent as given, with no stats lookup. *)
Lemma release_given_priority h (p delay : Z) :
  reserved (Job.self h) = true -> p <> 0 ->
  Job.release (Some p) delay h
  = (Job.on_conn (Connection.release (jid (Job.self h)) (SInt p) delay)
       ;;; Job.set_reserved false) h.
Proof.
  intros Hr Hp. unfold Job.release, bind at 1, Job.get_self.
  rewrite Hr. unfold Job.priority_or.
  destruct (p =? 0) eqn:E; [apply Z.eqb_eq in E; contradiction|].
  reflexivity.
Qed.

Lemma bury_given_priority h (p : Z) :
  reserved (Job.self h) = true -> p <> 0 ->
  Job.bury (Some p) h
  = (Job.on_conn (Connection.bury (jid (Job.self h)) (SInt p))
       ;;; Job.set_reserved false) h.
Proof.
  intros Hr Hp. unfold Job.bury, bind at 1, Job.get_self.
  rewrite Hr. unfold Job.priority_or.
  destruct (p =? 0) eqn:E; [apply Z.eqb_eq in E; contradiction|].
  reflexivity.
Qed.

End JobLifecycle.

(** ** Round trip through a faithful daemon *)

Section RoundTrip.

Lemma firstn_exact (b rest : bytes) :
  firstn (Z.to_nat (Z.of_nat (List.length b))) (b ++ rest) = b.
Proof.
  rewrite Nat2Z.id. rewrite firstn_app, Nat.sub_diag, firstn_all.
  simpl. apply app_nil_r.
Qed.

Lemma skipn_exact (b rest : bytes) :
  skipn (Z.to_nat (Z.of_nat (List.length b))) (b ++ rest) = rest.
Proof.
  rewrite Nat2Z.id. rewrite skipn_app, Nat.sub_diag, skipn_all.
  reflexivity.
Qed.

Lemma do_put_stores (st : Beanstalkd.state) (b : bytes) :
  Beanstalkd.do_put st 0 (Z.of_nat (List.length b)) (b ++ crlf)
  = (Beanstalkd.mkState (Beanstalkd.next_id st + 1)
       (Beanstalkd.ready st ++ [(Beanstalkd.next_id st, b)])
       (Beanstalkd.delayed st) (Beanstalkd.held st),
     B "INSERTED " ++ fmt_d (Beanstalkd.next_id st) ++ crlf).
Proof.
  unfold Beanstalkd.do_put.
  rewrite firstn_exact, skipn_exact, Nat2Z.id, Nat.eqb_refl.
  reflexivity.
Qed.

Lemma put_header_tokens (X : bytes) :
  word X -> X <> [] ->
  split (B "put 2147483648 0 120 " ++ X ++ crlf)
  = [B "put"; B "2147483648"; B "0"; B "120"; X].
Proof.
  intros Hw Hne.
  change (split (B "put 2147483648 0 120 " ++ X ++ crlf))
    with (B "put" :: B "2147483648" :: B "0" :: B "120"
            :: split_from [] (X ++ crlf)).
  now rewrite split_last_word.
Qed.

Lemma step_put_payload (st : Beanstalkd.state) (X b : bytes) :
  word X -> X <> [] -> one_line X ->
  Beanstalkd.number X = Some (Z.of_nat (List.length b)) ->
  Beanstalkd.step st (B "put 2147483648 0 120 " ++ X ++ crlf ++ b ++ crlf)
  = Beanstalkd.do_put st 0 (Z.of_nat (List.length b)) (b ++ crlf).
Proof.
  intros Hw Hne Hl Hn. unfold Beanstalkd.step.
  replace (B "put 2147483648 0 120 " ++ X ++ crlf ++ b ++ crlf)
    with ((B "put 2147483648 0 120 " ++ X ++ [CR]) ++ LF :: (b ++ crlf))
    by (now rewrite <- !app_assoc).
  rewrite take_line_one_line.
  - replace ((B "put 2147483648 0 120 " ++ X ++ [CR]) ++ [LF])
      with (B "put 2147483648 0 120 " ++ X ++ crlf)
      by (now rewrite <- !app_assoc).
    rewrite put_header_tokens by assumption.
    rewrite Hn. reflexivity.
  - unfold one_line. apply Forall_app. split; [repeat constructor|].
    apply Forall_app. split; [assumption | repeat constructor].
Qed.

Context {DS : Type}.
Implicit Types (c : Connection DS).

(** On a socket with nothing buffered and no fault scheduled, the exchange
    reads the first line of the daemon's answer. *)
Lemma exchange_reads_answer c (command h rest status : bytes)
    (results : list bytes) (d' : DS) :
  faults (_socket c) = [] ->
  rbuf (_socket c) = [] ->
  peer_step (_socket c) (peer_state (_socket c)) command
  = (d', h ++ LF :: rest) ->
  one_line h ->
  split (h ++ [LF]) = status :: results ->
  exchange command c
  = (Ok (status, results),
     mkConnection
       (mkTransport (peer_step (_socket c)) d' rest
          (sent (_socket c) ++ [command]) [])
       (_parse_yaml c)).
Proof.
  destruct c as [[step d r s f] parse]. cbn [_socket faults rbuf peer_step
    peer_state sent _parse_yaml].
  intros -> -> Hstep Hh Hsplit.
  unfold exchange, bind, on_socket, SocketError_wrap, sendall, io_call.
  cbn [_socket faults rbuf peer_step peer_state sent _parse_yaml].
  rewrite Hstep. cbn [app].
  unfold Connection._read_response, bind, on_socket, SocketError_wrap,
    readline, io_call.
  cbn [_socket faults rbuf peer_step peer_state sent _parse_yaml].
  rewrite (take_line_one_line h rest Hh). rewrite Hsplit.
  destruct (h ++ [LF]) eqn:E; [now destruct h|].
  reflexivity.
Qed.

Lemma read_body_exact c (b : bytes) :
  faults (_socket c) = [] ->
  rbuf (_socket c) = b ++ crlf ->
  Connection._read_body (Z.of_nat (List.length b)) c
  = (Ok b,
     mkConnection
       (mkTransport (peer_step (_socket c)) (peer_state (_socket c)) []
          (sent (_socket c)) [])
       (_parse_yaml c)).
Proof.
  destruct c as [[step d r s f] parse]. cbn [_socket faults rbuf peer_step
    peer_state sent _parse_yaml].
  intros -> ->.
  unfold Connection._read_body, bind, on_socket, SocketError_wrap, read,
    io_call.
  assert (H1 : (Z.of_nat (List.length b) <? -1) = false)
    by (apply Z.ltb_ge; lia).
  assert (H2 : (Z.of_nat (List.length b) =? -1) = false)
    by (apply Z.eqb_neq; lia).
  cbn [_socket faults rbuf peer_step peer_state sent _parse_yaml].
  rewrite H1, H2, firstn_exact, skipn_exact.
  cbn [_socket faults rbuf peer_step peer_state sent _parse_yaml].
  change (2 <? -1) with false. change (2 =? -1) with false.
  cbn [_socket faults rbuf peer_step peer_state sent _parse_yaml].
  destruct b as [|x b]; [reflexivity|].
  rewrite andb_false_r. reflexivity.
Qed.

End RoundTrip.

Section FaithfulDaemon.

Variables (b : bytes) (st : Beanstalkd.state).
Variable parse : bytes -> Res document.
Hypothesis no_ready_job : Beanstalkd.ready st = [].

Lemma daemon_stores_put :
  Beanstalkd.step st (Beanstalkd.put_payload b)
  = (Beanstalkd.stored st b,
     B "INSERTED " ++ fmt_d (Beanstalkd.next_id st) ++ crlf).
Proof.
  unfold Beanstalkd.put_payload.
  rewrite step_put_payload, do_put_stores.
  - unfold Beanstalkd.stored. now rewrite no_ready_job.
  - apply fmt_d_word.
  - apply fmt_d_not_empty.
  - apply fmt_d_one_line.
  - apply number_fmt_d. lia.
Qed.

Lemma daemon_hands_out :
  Beanstalkd.step (Beanstalkd.stored st b) (B "reserve" ++ crlf)
  = (Beanstalkd.handed_out st b,
     B "RESERVED " ++ fmt_d (Beanstalkd.next_id st) ++ [SP]
       ++ fmt_d (Z.of_nat (List.length b)) ++ crlf ++ b ++ crlf).
Proof. reflexivity. Qed.

Lemma put_returns_id :
  Connection.put (Bytes b) DEFAULT_PRIORITY 0 DEFAULT_TTR
    (Beanstalkd.connect st parse)
  = (Ok (Beanstalkd.next_id st), Beanstalkd.after_put st b parse).
Proof.
  assert (E : exchange (Beanstalkd.put_payload b)
                (Beanstalkd.connect st parse)
              = (Ok (B "INSERTED", [fmt_d (Beanstalkd.next_id st)]),
                 Beanstalkd.after_put st b parse)).
  { apply (exchange_reads_answer (Beanstalkd.connect st parse)
             (Beanstalkd.put_payload b)
             (B "INSERTED " ++ fmt_d (Beanstalkd.next_id st) ++ [CR]) []);
      try reflexivity.
    - cbn [Beanstalkd.connect _socket peer_step peer_state].
      rewrite daemon_stores_put. now rewrite <- !app_assoc.
    - unfold one_line. apply Forall_app. split; [repeat constructor|].
      apply Forall_app. split; [apply fmt_d_one_line | repeat constructor].
    - rewrite <- !app_assoc.
      change (split (B "INSERTED " ++ fmt_d (Beanstalkd.next_id st)
                       ++ [CR] ++ [LF]))
        with (B "INSERTED"
                :: split_from [] (fmt_d (Beanstalkd.next_id st) ++ crlf)).
      rewrite split_last_word;
        [reflexivity | apply fmt_d_word | apply fmt_d_not_empty]. }
  unfold Connection.put, bind, Connection._interact_value, bind.
  change (B "put " ++ fmt_d DEFAULT_PRIORITY ++ [SP] ++ fmt_d 0 ++ [SP]
            ++ fmt_d DEFAULT_TTR ++ [SP]
            ++ fmt_d (Z.of_nat (List.length b)) ++ crlf ++ b ++ crlf)
    with (Beanstalkd.put_payload b).
  rewrite (interact_ok _ _ [B "INSERTED"]
             [B "JOB_TOO_BIG"; B "BURIED"; B "DRAINING"] _ _
             (f_equal fst E) eq_refl).
  rewrite E. unfold item0, ret, int_. cbn [snd].
  now rewrite py_int_fmt_d.
Qed.

Lemma reserve_returns_job :
  Connection.reserve None (Beanstalkd.after_put st b parse)
  = (Ok (Some (mkJob (Beanstalkd.next_id st) b true)),
     Beanstalkd.after_reserve st b parse).
Proof.
  assert (E : exchange (B "reserve" ++ crlf)
                (Beanstalkd.after_put st b parse)
              = (Ok (B "RESERVED",
                     [fmt_d (Beanstalkd.next_id st);
                      fmt_d (Z.of_nat (List.length b))]),
                 mkConnection
                   (mkTransport Beanstalkd.step (Beanstalkd.handed_out st b)
                      (b ++ crlf)
                      [Beanstalkd.put_payload b; B "reserve" ++ crlf] [])
                   parse)).
  { apply (exchange_reads_answer (Beanstalkd.after_put st b parse)
             (B "reserve" ++ crlf)
             (B "RESERVED " ++ fmt_d (Beanstalkd.next_id st) ++ [SP]
                ++ fmt_d (Z.of_nat (List.length b)) ++ [CR])
             (b ++ crlf)); try reflexivity.
    - cbn [Beanstalkd.after_put _socket peer_step peer_state].
      rewrite daemon_hands_out. now rewrite <- !app_assoc.
    - unfold one_line. apply Forall_app. split; [repeat constructor|].
      apply Forall_app. split; [apply fmt_d_one_line|].
      apply Forall_app. split; [repeat constructor|].
      apply Forall_app. split; [apply fmt_d_one_line | repeat constructor].
    - rewrite <- !app_assoc.
      change (split (B "RESERVED " ++ fmt_d (Beanstalkd.next_id st) ++ [SP]
                       ++ fmt_d (Z.of_nat (List.length b)) ++ [CR] ++ [LF]))
        with (B "RESERVED"
                :: split_from []
                     (fmt_d (Beanstalkd.next_id st)
                        ++ SP :: (fmt_d (Z.of_nat (List.length b)) ++ crlf))).
      rewrite split_inner_word by (apply fmt_d_word || apply fmt_d_not_empty).
      rewrite split_last_word;
        [reflexivity | apply fmt_d_word | apply fmt_d_not_empty]. }
  unfold Connection.reserve, except_CommandFailed, bind,
    Connection._interact_job, bind.
  change (Connection.reserve_command None) with (B "reserve" ++ crlf).
  rewrite (interact_ok _ _ [B "RESERVED"] [B "DEADLINE_SOON"; B "TIMED_OUT"]
             _ _ (f_equal fst E) eq_refl).
  rewrite E. cbn [snd]. unfold int_.
  rewrite (py_int_fmt_d (Z.of_nat (List.length b))). unfold ret at 1.
  rewrite read_body_exact by reflexivity.
  rewrite (py_int_fmt_d (Beanstalkd.next_id st)). reflexivity.
Qed.

End FaithfulDaemon.

(** C4. For every byte sequence [b], whatever bytes it holds: on a fresh
    connection to a daemon that stores and returns jobs faithfully and has
    no ready job, [put(b)] returns the id the daemon gave the job, and the
    [reserve()] that follows yields the [Job] with that id, [reserved]
    true, and a [body] equal to [b]; the stream is then fully consumed. *)
Theorem put_reserve_round_trip (b : bytes) (st : Beanstalkd.state)
    (parse : bytes -> Res document) :
  Beanstalkd.ready st = [] ->
  Connection.put (Bytes b) DEFAULT_PRIORITY 0 DEFAULT_TTR
    (Beanstalkd.connect st parse)
  = (Ok (Beanstalkd.next_id st), Beanstalkd.after_put st b parse)
  /\
  Connection.reserve None (Beanstalkd.after_put st b parse)
  = (Ok (Some (mkJob (Beanstalkd.next_id st) b true)),
     Beanstalkd.after_reserve st b parse)
  /\
  rbuf (_socket (Beanstalkd.after_reserve st b parse)) = [].
Proof.
  intros Hready. split; [|split].
  - now apply put_returns_id.
  - now apply reserve_returns_job.
  - reflexivity.
Qed.

Lemma put_reserve_round_trip_witness :
  Connection.put (Bytes (B "a b" ++ crlf ++ B "c")) DEFAULT_PRIORITY 0
    DEFAULT_TTR (Beanstalkd.connect (Beanstalkd.mkState 5 [] [] []) no_yaml)
  = (Ok 5,
     Beanstalkd.after_put (Beanstalkd.mkState 5 [] [] [])
       (B "a b" ++ crlf ++ B "c") no_yaml)
  /\
  Connection.reserve None
    (Beanstalkd.after_put (Beanstalkd.mkState 5 [] [] [])
       (B "a b" ++ crlf ++ B "c") no_yaml)
  = (Ok (Some (mkJob 5 (B "a b" ++ crlf ++ B "c") true)),
     Beanstalkd.after_reserve (Beanstalkd.mkState 5 [] [] [])
       (B "a b" ++ crlf ++ B "c") no_yaml)
  /\
  rbuf (_socket (Beanstalkd.after_reserve (Beanstalkd.mkState 5 [] [] [])
                   (B "a b" ++ crlf ++ B "c") no_yaml)) = [].
Proof.
  apply (put_reserve_round_trip (B "a b" ++ crlf ++ B "c")
           (Beanstalkd.mkState 5 [] [] []) no_yaml).
  reflexivity.
Defined.

(** ** The statements on concrete runs *)

Lemma reserve_timed_out_deadline_soon_witness :
  (Connection.reserve (Some 0) (Scripted.connect [B "TIMED_OUT" ++ crlf] [])
   = (Ok None,
      snd (exchange (Connection.reserve_command (Some 0))
             (Scripted.connect [B "TIMED_OUT" ++ crlf] []))))
  /\
  (Connection.reserve None
     (Scripted.connect [B "DEADLINE_SOON" ++ crlf] [])
   = (Raise (DeadlineSoon []),
      snd (exchange (Connection.reserve_command None)
             (Scripted.connect [B "DEADLINE_SOON" ++ crlf] [])))).
Proof.
  split.
  - apply (proj1 (reserve_timed_out_deadline_soon
                    (Scripted.connect [B "TIMED_OUT" ++ crlf] [])
                    (Some 0) [])).
    reflexivity.
  - apply (proj2 (reserve_timed_out_deadline_soon
                    (Scripted.connect [B "DEADLINE_SOON" ++ crlf] [])
                    None [])).
    reflexivity.
Defined.

Lemma ignore_not_ignored_returns_one_witness :
  (Connection.ignore (Bytes (B "default"))
     (Scripted.connect [B "NOT_IGNORED" ++ crlf] [])
   = (Ok 1,
      snd (exchange (B "ignore " ++ B "default" ++ crlf)
             (Scripted.connect [B "NOT_IGNORED" ++ crlf] []))))
  /\
  (Connection.ignore (Bytes (B "jobs"))
     (Scripted.connect [B "WATCHING 3" ++ crlf] [])
   = (Ok 3,
      snd (exchange (B "ignore " ++ B "jobs" ++ crlf)
             (Scripted.connect [B "WATCHING 3" ++ crlf] [])))).
Proof.
  split.
  - apply (proj1 (ignore_not_ignored_returns_one
                    (Scripted.connect [B "NOT_IGNORED" ++ crlf] [])
                    (B "default") [])).
    reflexivity.
  - apply (proj2 (ignore_not_ignored_returns_one
                    (Scripted.connect [B "WATCHING 3" ++ crlf] [])
                    (B "jobs") []) (B "3") [] 3).
    + reflexivity.
    + reflexivity.
Defined.

Lemma peek_not_found_is_none_witness :
  (peek_call (PeekId 7) (Scripted.connect [B "NOT_FOUND" ++ crlf] [])
   = (Ok None,
      snd (exchange (peek_command (PeekId 7))
             (Scripted.connect [B "NOT_FOUND" ++ crlf] []))))
  /\
  (peek_call PeekBuried
     (Scripted.connect [B "FOUND 7 3" ++ crlf ++ B "abc" ++ crlf] [])
   = (Ok (Some (mkJob 7 (B "abc") false)),
      snd (Connection._read_body 3
             (snd (exchange (peek_command PeekBuried)
                     (Scripted.connect
                        [B "FOUND 7 3" ++ crlf ++ B "abc" ++ crlf] []))))))
  /\
  reserved (mkJob 7 (B "abc") false) = false.
Proof.
  split; [|split].
  - apply (proj1 (peek_not_found_is_none
                    (Scripted.connect [B "NOT_FOUND" ++ crlf] [])
                    (PeekId 7)) []).
    reflexivity.
  - apply (proj1 (proj2 (proj2 (peek_not_found_is_none
                    (Scripted.connect
                       [B "FOUND 7 3" ++ crlf ++ B "abc" ++ crlf] [])
                    PeekBuried))) (B "7") (B "3") 7 3 (B "abc"));
      reflexivity.
  - apply (proj2 (proj2 (proj2 (peek_not_found_is_none
                    (Scripted.connect
                       [B "FOUND 7 3" ++ crlf ++ B "abc" ++ crlf] [])
                    PeekBuried))) (mkJob 7 (B "abc") false)).
    reflexivity.
Defined.

Lemma job_noops_and_delegates_witness :
  Job.release (Some 5) 0
    (Scripted.handle (mkJob 7 (B "x") false) [B "RELEASED" ++ crlf])
  = (Ok tt, Scripted.handle (mkJob 7 (B "x") false) [B "RELEASED" ++ crlf])
  /\
  fst (Job.delete
         (Scripted.handle (mkJob 7 (B "x") false) [B "DELETED" ++ crlf]))
  = Ok tt
  /\
  Job.touch
    (Scripted.handle (mkJob 7 (B "x") true) [B "TOUCHED" ++ crlf])
  = (Ok tt,
     Job.mkHandle (mkJob 7 (B "x") true)
       (snd (Connection.touch 7 (Scripted.connect [B "TOUCHED" ++ crlf] [])))).
Proof.
  split; [|split].
  - apply (proj1 (job_noops_and_delegates
                    (Scripted.handle (mkJob 7 (B "x") false)
                       [B "RELEASED" ++ crlf]))).
    reflexivity.
  - apply (proj1 (proj2 (proj1 (proj2 (job_noops_and_delegates
                    (Scripted.handle (mkJob 7 (B "x") false)
                       [B "DELETED" ++ crlf])))))).
    reflexivity.
  - apply (proj2 (proj2 (job_noops_and_delegates
                    (Scripted.handle (mkJob 7 (B "x") true)
                       [B "TOUCHED" ++ crlf])))).
    reflexivity.
Defined.

(** C6 as stated fails on a second [delete]: the daemon answers
    [DELETED], then [NOT_FOUND], and the second [Job.delete] raises
    [CommandFailed]. *)
Lemma second_delete_raises_counterexample :
  fst (Job.delete
         (Scripted.handle (mkJob 7 (B "x") true)
            [B "DELETED" ++ crlf; B "NOT_FOUND" ++ crlf]))
  = Ok tt
  /\
  fst (Job.delete
         (snd (Job.delete
                 (Scripted.handle (mkJob 7 (B "x") true)
                    [B "DELETED" ++ crlf; B "NOT_FOUND" ++ crlf]))))
  = Raise (CommandFailed (B "delete") (B "NOT_FOUND") []).
Proof. split; reflexivity. Qed.

Lemma after_delete_further_calls_witness :
  Job.release None 0
    (snd (Job.delete
            (Scripted.handle (mkJob 7 (B "x") true)
               [B "DELETED" ++ crlf; B "NOT_FOUND" ++ crlf])))
  = (Ok tt,
     snd (Job.delete
            (Scripted.handle (mkJob 7 (B "x") true)
               [B "DELETED" ++ crlf; B "NOT_FOUND" ++ crlf])))
  /\
  fst (Job.delete
         (snd (Job.delete
                 (Scripted.handle (mkJob 7 (B "x") true)
                    [B "DELETED" ++ crlf; B "NOT_FOUND" ++ crlf]))))
  = Raise (CommandFailed (B "delete") (B "NOT_FOUND") []).
Proof.
  pose proof (after_delete_further_calls
                (Scripted.handle (mkJob 7 (B "x") true)
                   [B "DELETED" ++ crlf; B "NOT_FOUND" ++ crlf])
                (snd (Job.delete
                        (Scripted.handle (mkJob 7 (B "x") true)
                           [B "DELETED" ++ crlf; B "NOT_FOUND" ++ crlf])))
                eq_refl)
    as [_ [Hrelease [_ [_ Hdelete]]]].
  split.
  - apply Hrelease.
  - apply (Hdelete []). reflexivity.
Defined.

Lemma job_unchanged_when_call_raises_witness :
  Job.self
    (snd (Job.delete
            (Scripted.handle (mkJob 7 (B "x") true)
               [B "NOT_FOUND" ++ crlf])))
  = mkJob 7 (B "x") true
  /\
  Job.self
    (snd (Job.release (Some 5) 0
            (Scripted.handle (mkJob 7 (B "x") true)
               [B "OUT_OF_MEMORY" ++ crlf])))
  = mkJob 7 (B "x") true
  /\
  Job.self
    (snd (Job.bury None
            (Job.mkHandle (mkJob 7 (B "x") true)
               (Scripted.connect [] [true]))))
  = mkJob 7 (B "x") true
  /\
  Job.delete
    (Job.mkHandle (mkJob 7 (B "x") true) (Scripted.connect [] [true]))
  = (Raise (SocketError true),
     Job.mkHandle (mkJob 7 (B "x") true)
       (snd (Connection.delete 7 (Scripted.connect [] [true]))))
  /\
  Job.release (Some 5) 0
    (Scripted.handle (mkJob 7 (B "x") true) [B "NOT_FOUND" ++ crlf])
  = (Raise (CommandFailed (B "release") (B "NOT_FOUND") []),
     Job.mkHandle (mkJob 7 (B "x") true)
       (snd (Connection.release 7 (SInt 5) 0
               (Scripted.connect [B "NOT_FOUND" ++ crlf] []))))
  /\
  Job.bury None
    (Scripted.handle_decoding pri_1024 (mkJob 7 (B "x") true)
       [B "OK 10" ++ crlf ++ B "pri: 1024" ++ [LF] ++ crlf;
        B "NOT_FOUND" ++ crlf])
  = (Raise (CommandFailed (B "bury") (B "NOT_FOUND") []),
     Job.mkHandle (mkJob 7 (B "x") true)
       (snd (Connection.bury 7 (SInt 1024)
               (Job.conn
                  (snd (Job._priority
                          (Scripted.handle_decoding pri_1024
                             (mkJob 7 (B "x") true)
                             [B "OK 10" ++ crlf ++ B "pri: 1024" ++ [LF]
                                ++ crlf;
                              B "NOT_FOUND" ++ crlf]))))))).
Proof.
  split; [|split; [|split; [|split; [|split]]]].
  - apply (proj1 (job_unchanged_when_call_raises
                    (Scripted.handle (mkJob 7 (B "x") true)
                       [B "NOT_FOUND" ++ crlf])
                    (snd (Job.delete
                            (Scripted.handle (mkJob 7 (B "x") true)
                               [B "NOT_FOUND" ++ crlf])))
                    (CommandFailed (B "delete") (B "NOT_FOUND") []))).
    reflexivity.
  - apply (proj1 (proj2 (job_unchanged_when_call_raises
                    (Scripted.handle (mkJob 7 (B "x") true)
                       [B "OUT_OF_MEMORY" ++ crlf])
                    (snd (Job.release (Some 5) 0
                            (Scripted.handle (mkJob 7 (B "x") true)
                               [B "OUT_OF_MEMORY" ++ crlf])))
                    (UnexpectedResponse (B "release") (B "OUT_OF_MEMORY")
                       []))) (Some 5) 0).
    reflexivity.
  - apply (proj1 (proj2 (proj2 (job_unchanged_when_call_raises
                    (Job.mkHandle (mkJob 7 (B "x") true)
                       (Scripted.connect [] [true]))
                    (snd (Job.bury None
                            (Job.mkHandle (mkJob 7 (B "x") true)
                               (Scripted.connect [] [true]))))
                    (SocketError true)))) None).
    reflexivity.
  - apply (proj1 (proj2 (proj2 (proj2 (job_unchanged_when_call_raises
                    (Job.mkHandle (mkJob 7 (B "x") true)
                       (Scripted.connect [] [true]))
                    (Job.mkHandle (mkJob 7 (B "x") true)
                       (Scripted.connect [] [true]))
                    (SocketError true)))))).
    reflexivity.
  - apply (proj1 (proj2 (proj2 (proj2 (proj2
                  (job_unchanged_when_call_raises
                     (Scripted.handle (mkJob 7 (B "x") true)
                        [B "NOT_FOUND" ++ crlf])
                     (Scripted.handle (mkJob 7 (B "x") true)
                        [B "NOT_FOUND" ++ crlf])
                     (CommandFailed (B "release") (B "NOT_FOUND") []))))))
             (Some 5) 0 (SInt 5)
             (Scripted.handle (mkJob 7 (B "x") true)
                [B "NOT_FOUND" ++ crlf]));
      reflexivity.
  - apply (proj2 (proj2 (proj2 (proj2 (proj2
                  (job_unchanged_when_call_raises
                     (Scripted.handle_decoding pri_1024
                        (mkJob 7 (B "x") true)
                        [B "OK 10" ++ crlf ++ B "pri: 1024" ++ [LF] ++ crlf;
                         B "NOT_FOUND" ++ crlf])
                     (Scripted.handle_decoding pri_1024
                        (mkJob 7 (B "x") true)
                        [B "OK 10" ++ crlf ++ B "pri: 1024" ++ [LF] ++ crlf;
                         B "NOT_FOUND" ++ crlf])
                     (CommandFailed (B "bury") (B "NOT_FOUND") []))))))
             None (SInt 1024)
             (snd (Job._priority
                     (Scripted.handle_decoding pri_1024
                        (mkJob 7 (B "x") true)
                        [B "OK 10" ++ crlf ++ B "pri: 1024" ++ [LF] ++ crlf;
                         B "NOT_FOUND" ++ crlf]))));
      reflexivity.
Defined.

(** C7 on the code.  A reserved job is released, then buried, with the
    priority 0 given by the caller.  The code looks the priority up with
    [stats-job] as if none were given, and sends what it finds in place of
    0: the default priority when the document is not decoded, the job's
    current priority when it is. *)
Theorem release_priority_zero_is_replaced :
  (fst (Job.release (Some 0) 0
          (Scripted.handle (mkJob 7 (B "x") true)
             [B "OK 10" ++ crlf ++ B "pri: 1024" ++ [LF] ++ crlf;
              B "RELEASED" ++ crlf]))
   = Ok tt
   /\
   sent (_socket (Job.conn (snd (Job.release (Some 0) 0
          (Scripted.handle (mkJob 7 (B "x") true)
             [B "OK 10" ++ crlf ++ B "pri: 1024" ++ [LF] ++ crlf;
              B "RELEASED" ++ crlf])))))
   = [B "stats-job 7" ++ crlf; B "release 7 2147483648 0" ++ crlf])
  /\
  (fst (Job.bury (Some 0)
          (Scripted.handle_decoding pri_1024 (mkJob 7 (B "x") true)
             [B "OK 10" ++ crlf ++ B "pri: 1024" ++ [LF] ++ crlf;
              B "BURIED" ++ crlf]))
   = Ok tt
   /\
   sent (_socket (Job.conn (snd (Job.bury (Some 0)
          (Scripted.handle_decoding pri_1024 (mkJob 7 (B "x") true)
             [B "OK 10" ++ crlf ++ B "pri: 1024" ++ [LF] ++ crlf;
              B "BURIED" ++ crlf])))))
   = [B "stats-job 7" ++ crlf; B "bury 7 1024" ++ crlf]).
Proof. repeat split; vm_compute; reflexivity. Qed.

(** * Further properties of the interaction layer *)

Section Outcomes.

Context {DS : Type}.
Implicit Types (t : Transport DS) (c : Connection DS).
Implicit Types (command status verb : bytes) (results ok err : list bytes).

Lemma wrap_sendall_raises t command e :
  fst (SocketError_wrap (sendall command) t) = Raise e ->
  e = SocketError true.
Proof.
  unfold SocketError_wrap, sendall.
  destruct (io_call t) as [[|] t1]; simpl.
  - now intros [= <-].
  - destruct (peer_step t1 (peer_state t1) command). discriminate.
Qed.

Lemma wrap_readline_raises t e :
  fst (SocketError_wrap readline t) = Raise e -> e = SocketError true.
Proof.
  unfold SocketError_wrap, readline.
  destruct (io_call t) as [[|] t1]; simpl.
  - now intros [= <-].
  - destruct (take_line (rbuf t1)). discriminate.
Qed.

Lemma read_response_raises c e :
  fst (Connection._read_response c) = Raise e ->
  e = SocketError true \/ e = SocketError false \/ e = IndexError.
Proof.
  unfold Connection._read_response, bind, on_socket.
  pose proof (wrap_readline_raises (_socket c)) as H.
  destruct (SocketError_wrap readline (_socket c)) as [[line|e1] t1];
    simpl in *.
  - destruct line as [|x line]; simpl.
    + intros [= <-]. auto.
    + destruct (split (x :: line)); simpl; [|discriminate].
      intros [= <-]. auto.
  - intros [= <-]. left. now apply H.
Qed.

Lemma exchange_raises c command e :
  fst (exchange command c) = Raise e ->
  e = SocketError true \/ e = SocketError false \/ e = IndexError.
Proof.
  unfold exchange, bind, on_socket at 1.
  pose proof (wrap_sendall_raises (_socket c) command) as H.
  destruct (SocketError_wrap (sendall command) (_socket c)) as [[[]|e1] t1];
    simpl in *.
  - pose proof (read_response_raises (mkConnection t1 (_parse_yaml c))) as H1.
    destruct (Connection._read_response (mkConnection t1 (_parse_yaml c)))
      as [[sr|e2] c2]; simpl in *; [discriminate|].
    intros [= <-]. now apply H1.
  - intros [= <-]. left. now apply H.
Qed.

Lemma py_in_false_not_In status (xs : list bytes) :
  py_in status xs = false <-> ~ In status xs.
Proof.
  rewrite <- py_in_In. destruct (py_in status xs); split; congruence.
Qed.

(** X1. The conditions [_interact] raises say what happened: a
    [CommandFailed] carries a status that was read from the wire, is in the
    declared failure set and not in the success set, and the first token of
    the command; an [UnexpectedResponse] carries a status that was read and
    is in neither set. *)
Theorem interact_raises_classified c command ok err verb status results :
  (fst (Connection._interact command ok err c)
   = Raise (CommandFailed verb status results) ->
   fst (exchange command c) = Ok (status, results)
   /\ ~ In status ok /\ In status err
   /\ exists rest, split command = verb :: rest)
  /\
  (fst (Connection._interact command ok err c)
   = Raise (UnexpectedResponse verb status results) ->
   fst (exchange command c) = Ok (status, results)
   /\ ~ In status ok /\ ~ In status err
   /\ exists rest, split command = verb :: rest).
Proof.
  destruct (fst (exchange command c)) as [[st rs]|e] eqn:Hx.
  - rewrite (interact_after_exchange _ _ ok err _ _ Hx).
    destruct (py_in st ok) eqn:Hok; [split; discriminate|].
    apply py_in_false_not_In in Hok.
    destruct (py_in st err) eqn:Herr; unfold bind, item0;
      destruct (split command) as [|v rest] eqn:Hv; simpl;
      split; try discriminate; intros [= -> -> ->];
      (split; [reflexivity|]); (split; [assumption|]).
    + split; [now apply py_in_In | now exists rest].
    + split; [now apply py_in_false_not_In | now exists rest].
  - rewrite (interact_exchange_fails _ _ ok err _ Hx). simpl.
    apply exchange_raises in Hx as [->|[->| ->]]; split; discriminate.
Qed.

(** X2. [_interact] ends in one of five ways only: it returns, or raises
    [SocketError], [CommandFailed], [UnexpectedResponse], or the
    [IndexError] of a line or command without tokens.  In particular no
    raw [socket.error] escapes it. *)
Theorem interact_outcomes c command ok err (e : exn) :
  fst (Connection._interact command ok err c) = Raise e ->
  (exists wrapped, e = SocketError wrapped)
  \/ e = IndexError
  \/ (exists verb status results, e = CommandFailed verb status results)
  \/ (exists verb status results, e = UnexpectedResponse verb status results).
Proof.
  destruct (fst (exchange command c)) as [[st rs]|e1] eqn:Hx.
  - rewrite (interact_after_exchange _ _ ok err _ _ Hx).
    destruct (py_in st ok); [discriminate|].
    destruct (py_in st err); unfold bind, item0;
      destruct (split command) as [|v rest]; simpl; intros [= <-]; eauto 8.
  - rewrite (interact_exchange_fails _ _ ok err _ Hx). simpl.
    intros [= <-].
    apply exchange_raises in Hx as [->|[->| ->]]; eauto.
Qed.

End Outcomes.

Section Wire.

Context {DS : Type}.
Implicit Types (t : Transport DS) (c : Connection DS).
Implicit Types (command status verb : bytes) (results ok err : list bytes).

Lemma split_from_spaces (ws : bytes) :
  Forall (fun x => is_space x = true) ws -> split_from [] ws = [].
Proof.
  induction 1 as [|x ws Hx _ IH]; simpl; [reflexivity|].
  now rewrite Hx.
Qed.

Lemma interact_state c command ok err :
  snd (Connection._interact command ok err c) = snd (exchange command c).
Proof.
  destruct (fst (exchange command c)) as [[st rs]|e] eqn:Hx.
  - rewrite (interact_after_exchange _ _ ok err _ _ Hx).
    destruct (py_in st ok); [reflexivity|].
    destruct (py_in st err); unfold bind, item0;
      destruct (split command); reflexivity.
  - now rewrite (interact_exchange_fails _ _ ok err _ Hx).
Qed.

(** The exchange on a socket without scheduled faults: the command goes
    out, the daemon's answer is appended to what was buffered, and the
    oldest buffered line is the one that is read. *)
Lemma exchange_reads_oldest_line c command (h rest answer : bytes) (d' : DS) :
  faults (_socket c) = [] ->
  peer_step (_socket c) (peer_state (_socket c)) command = (d', answer) ->
  rbuf (_socket c) ++ answer = h ++ LF :: rest ->
  one_line h ->
  exchange command c
  = (match split (h ++ [LF]) with
     | status :: results => Ok (status, results)
     | [] => Raise IndexError
     end,
     mkConnection
       (mkTransport (peer_step (_socket c)) d' rest
          (sent (_socket c) ++ [command]) [])
       (_parse_yaml c)).
Proof.
  destruct c as [[step d r s f] parse].
  cbn [_socket faults rbuf peer_step peer_state sent _parse_yaml].
  intros -> Hstep Hbuf Hh.
  unfold exchange, bind, on_socket, SocketError_wrap, sendall, io_call.
  cbn [_socket faults rbuf peer_step peer_state sent _parse_yaml].
  rewrite Hstep, Hbuf.
  unfold Connection._read_response, bind, on_socket, SocketError_wrap,
    readline, io_call.
  cbn [_socket faults rbuf peer_step peer_state sent _parse_yaml].
  rewrite (take_line_one_line h rest Hh).
  destruct (h ++ [LF]) eqn:E; [now destruct h|].
  destruct (split (b :: l)) as [|st rs]; reflexivity.
Qed.


(** X4. A status line made of whitespace only (a bare CRLF, say) is not
    classified at all: [_interact] ends in the [IndexError] of
    [response[0]], neither [CommandFailed] nor [UnexpectedResponse]. *)
Theorem interact_blank_status_line c command ok err
    (ws rest answer : bytes) (d' : DS) :
  faults (_socket c) = [] ->
  peer_step (_socket c) (peer_state (_socket c)) command = (d', answer) ->
  rbuf (_socket c) ++ answer = ws ++ LF :: rest ->
  one_line ws ->
  Forall (fun x => is_space x = true) ws ->
  fst (Connection._interact command ok err c) = Raise IndexError.
Proof.
  intros Hf Hstep Hbuf Hline Hws.
  assert (Hx : fst (exchange command c) = Raise IndexError).
  { rewrite (exchange_reads_oldest_line c command ws rest answer d'
               Hf Hstep Hbuf Hline).
    unfold split. rewrite split_from_spaces; [reflexivity|].
    apply Forall_app. split; [assumption | now repeat constructor]. }
  now rewrite (interact_exchange_fails _ _ ok err _ Hx).
Qed.

(** X5. [_interact] reads exactly one line, and it is the oldest unread
    one: bytes already buffered are not skipped, so a stale line is taken
    for the answer, and everything after the first line feed stays in the
    stream, whichever way the status is classified. *)
Theorem interact_reads_one_line c command ok err
    (h rest answer status : bytes) results (d' : DS) :
  faults (_socket c) = [] ->
  peer_step (_socket c) (peer_state (_socket c)) command = (d', answer) ->
  rbuf (_socket c) ++ answer = h ++ LF :: rest ->
  one_line h ->
  split (h ++ [LF]) = status :: results ->
  fst (exchange command c) = Ok (status, results)
  /\ snd (Connection._interact command ok err c)
     = mkConnection
         (mkTransport (peer_step (_socket c)) d' rest
            (sent (_socket c) ++ [command]) [])
         (_parse_yaml c).
Proof.
  intros Hf Hstep Hbuf Hline Hsplit.
  rewrite interact_state.
  rewrite (exchange_reads_oldest_line c command h rest answer d'
             Hf Hstep Hbuf Hline).
  rewrite Hsplit. split; reflexivity.
Qed.

End Wire.

Section Bodies.

Context {DS : Type}.
Implicit Types (t : Transport DS) (c : Connection DS).
Implicit Types (command status verb : bytes) (results ok err : list bytes).

(** X6. Framing of a body.  With [n] body bytes and two more bytes in the
    stream, [_read_body(n)] returns exactly the [n] bytes and consumes
    exactly [n + 2]: the two trailer bytes are dropped whatever they are,
    and what follows stays in the stream. *)
Theorem read_body_frames c (data trailer rest : bytes) :
  faults (_socket c) = [] ->
  rbuf (_socket c) = data ++ trailer ++ rest ->
  List.length trailer = 2%nat ->
  Connection._read_body (Z.of_nat (List.length data)) c
  = (Ok data,
     mkConnection
       (mkTransport (peer_step (_socket c)) (peer_state (_socket c)) rest
          (sent (_socket c)) [])
       (_parse_yaml c)).
Proof.
  destruct c as [[step d r s f] parse].
  cbn [_socket faults rbuf peer_step peer_state sent _parse_yaml].
  intros -> -> Htrailer.
  destruct trailer as [|x [|y [|z trailer]]]; try discriminate.
  unfold Connection._read_body, bind, on_socket, SocketError_wrap, read,
    io_call.
  assert (H1 : (Z.of_nat (List.length data) <? -1) = false)
    by (apply Z.ltb_ge; lia).
  assert (H2 : (Z.of_nat (List.length data) =? -1) = false)
    by (apply Z.eqb_neq; lia).
  cbn [_socket faults rbuf peer_step peer_state sent _parse_yaml].
  rewrite H1, H2, firstn_exact, skipn_exact.
  cbn [_socket faults rbuf peer_step peer_state sent _parse_yaml].
  change (2 <? -1) with false. change (2 =? -1) with false.
  cbn [_socket faults rbuf peer_step peer_state sent _parse_yaml].
  destruct data as [|b data]; [reflexivity|].
  rewrite andb_false_r. reflexivity.
Qed.

(** X7. A short read is not detected.  For an announced length up to
    65535, when the stream ends inside the body, or right after it,
    [_read_body] returns the bytes that were there, fewer than announced,
    and raises nothing; only a read of no bytes at all is an error. *)
Theorem read_body_short_read c (size : Z) :
  faults (_socket c) = [] ->
  rbuf (_socket c) <> [] ->
  Z.of_nat (List.length (rbuf (_socket c))) <= size ->
  size <= DEFAULT_MAX_JOB_SIZE ->
  Connection._read_body size c
  = (Ok (rbuf (_socket c)),
     mkConnection
       (mkTransport (peer_step (_socket c)) (peer_state (_socket c)) []
          (sent (_socket c)) [])
       (_parse_yaml c)).
Proof.
  destruct c as [[step d r s f] parse].
  cbn [_socket faults rbuf peer_step peer_state sent _parse_yaml].
  intros -> Hne Hlen _.
  unfold Connection._read_body, bind, on_socket, SocketError_wrap, read,
    io_call.
  assert (H1 : (size <? -1) = false) by (apply Z.ltb_ge; lia).
  assert (H2 : (size =? -1) = false) by (apply Z.eqb_neq; lia).
  cbn [_socket faults rbuf peer_step peer_state sent _parse_yaml].
  rewrite H1, H2.
  rewrite firstn_all2 by lia. rewrite skipn_all2 by lia.
  cbn [_socket faults rbuf peer_step peer_state sent _parse_yaml].
  change (2 <? -1) with false. change (2 =? -1) with false.
  cbn [_socket faults rbuf peer_step peer_state sent _parse_yaml].
  destruct r as [|b r]; [congruence|].
  rewrite andb_false_r. reflexivity.
Qed.

(** X8. [_interact_job] wants exactly two arguments, a job id and a body
    length.  With a success status that carries any other number of
    arguments, or a length that is not an integer, it raises [ValueError]
    and has not read a byte past the status line. *)
Theorem interact_job_malformed c command ok err (flag : bool)
    status results :
  fst (exchange command c) = Ok (status, results) ->
  In status ok ->
  (List.length results <> 2%nat ->
   Connection._interact_job command ok err flag c
   = (Raise ValueError, snd (exchange command c)))
  /\
  (forall id size,
   results = [id; size] ->
   py_int size = None ->
   Connection._interact_job command ok err flag c
   = (Raise ValueError, snd (exchange command c))).
Proof.
  intros Hx Hok. apply py_in_In in Hok.
  pose proof (interact_ok c command ok err status results Hx Hok) as Hi.
  split.
  - intros Hlen. unfold Connection._interact_job, bind. rewrite Hi.
    destruct results as [|a [|b [|x rs]]]; try reflexivity.
    now destruct Hlen.
  - intros id size -> Hsize.
    unfold Connection._interact_job, bind. rewrite Hi.
    unfold int_. now rewrite Hsize.
Qed.

End Bodies.

Section Downgrades.

Context {DS : Type}.
Implicit Types (t : Transport DS) (c : Connection DS).
Implicit Types (command status verb : bytes) (results ok err : list bytes).

Lemma interact_job_reserved_flag c command ok err (flag : bool) (j : Job) :
  fst (Connection._interact_job command ok err flag c) = Ok j ->
  reserved j = flag.
Proof.
  unfold Connection._interact_job, bind.
  destruct (Connection._interact command ok err c) as [[rs|e] c1]; simpl;
    [|discriminate].
  destruct rs as [|jt [|st [|x rs]]]; simpl; try discriminate.
  unfold int_. destruct (py_int st) as [n|]; simpl; [|discriminate].
  destruct (Connection._read_body n c1) as [[b|e] c2]; simpl;
    [|discriminate].
  destruct (py_int jt) as [i|]; simpl; [|discriminate].
  now intros [= <-].
Qed.

(** A [CommandFailed] out of [_interact] names a declared failure. *)
Lemma interact_failed_declared c command ok err verb status results :
  fst (Connection._interact command ok err c)
  = Raise (CommandFailed verb status results) ->
  py_in status err = true.
Proof.
  destruct (fst (exchange command c)) as [[st rs]|e] eqn:Hx.
  - rewrite (interact_after_exchange _ _ ok err _ _ Hx).
    destruct (py_in st ok); [discriminate|].
    destruct (py_in st err) eqn:Herr; unfold bind, item0;
      destruct (split command); simpl; try discriminate.
    now intros [= _ <- _].
  - rewrite (interact_exchange_fails _ _ ok err _ Hx). simpl.
    apply exchange_raises in Hx as [->|[->| ->]]; discriminate.
Qed.

Lemma interact_value_failed_declared c command ok err verb status results :
  fst (Connection._interact_value command ok err c)
  = Raise (CommandFailed verb status results) ->
  py_in status err = true.
Proof.
  unfold Connection._interact_value, bind.
  pose proof (interact_failed_declared c command ok err verb status results)
    as H.
  destruct (Connection._interact command ok err c) as [[rs|e] c1];
    simpl in *.
  - destruct rs; discriminate.
  - intros [= ->]. now apply H.
Qed.

(** X9. [reserve] and [ignore] never end in [CommandFailed]: every
    declared failure is turned into a result or into [DeadlineSoon].  And
    every [Job] that [reserve] returns has its [reserved] flag set. *)
Theorem reserve_ignore_never_CommandFailed c verb status results :
  (forall timeout,
   fst (Connection.reserve timeout c)
   <> Raise (CommandFailed verb status results))
  /\
  (forall name,
   fst (Connection.ignore name c)
   <> Raise (CommandFailed verb status results))
  /\
  (forall timeout j,
   fst (Connection.reserve timeout c) = Ok (Some j) -> reserved j = true).
Proof.
  split; [|split].
  - intros timeout. unfold Connection.reserve, except_CommandFailed, bind.
    destruct (Connection._interact_job _ _ _ true c) as [[j|e] c1]; simpl;
      [discriminate|].
    destruct e; simpl; try discriminate.
    destruct (bytes_eqb status0 (B "TIMED_OUT")); [discriminate|].
    destruct (bytes_eqb status0 (B "DEADLINE_SOON")); discriminate.
  - intros [name|s]; [|discriminate].
    unfold Connection.ignore, except_CommandFailed, bind.
    destruct (Connection._interact_value _ _ _ c) as [[v|e] c1]; simpl.
    + unfold int_. destruct (py_int v); discriminate.
    + destruct e; discriminate.
  - intros timeout j. unfold Connection.reserve, except_CommandFailed, bind.
    pose proof (interact_job_reserved_flag c
                  (Connection.reserve_command timeout) [B "RESERVED"]
                  [B "DEADLINE_SOON"; B "TIMED_OUT"] true) as H.
    destruct (Connection._interact_job _ _ _ true c) as [[j0|e] c1];
      simpl in *.
    + intros [= <-]. now apply H.
    + destruct e; simpl; try discriminate.
      destruct (bytes_eqb status0 (B "TIMED_OUT")); [discriminate|].
      destruct (bytes_eqb status0 (B "DEADLINE_SOON")); discriminate.
Qed.

(** X10. The verbs that declare no failure status ([kick], [using],
    [use], [watch]) never raise [CommandFailed]: any status other than
    their success status is an [UnexpectedResponse]. *)
Theorem undeclared_failure_never_CommandFailed c verb status results :
  (forall bound,
   fst (Connection.kick bound c)
   <> Raise (CommandFailed verb status results))
  /\
  fst (Connection.using_ c) <> Raise (CommandFailed verb status results)
  /\
  (forall name,
   fst (Connection.use name c) <> Raise (CommandFailed verb status results))
  /\
  (forall name,
   fst (Connection.watch name c)
   <> Raise (CommandFailed verb status results)).
Proof.
  assert (Hv : forall command ok,
             fst (Connection._interact_value command ok [] c)
             <> Raise (CommandFailed verb status results)).
  { intros command ok H.
    apply interact_value_failed_declared in H. discriminate H. }
  split; [|split; [|split]].
  - intros bound. unfold Connection.kick, bind.
    specialize (Hv (B "kick " ++ fmt_d bound ++ crlf) [B "KICKED"]).
    destruct (Connection._interact_value _ _ _ c) as [[v|e] c1];
      simpl in *.
    + unfold int_. destruct (py_int v); discriminate.
    + intros [= ->]. now apply Hv.
  - apply Hv.
  - intros [name|s]; [apply Hv | discriminate].
  - intros [name|s]; [|discriminate].
    unfold Connection.watch, bind.
    specialize (Hv (B "watch " ++ name ++ crlf) [B "WATCHING"]).
    destruct (Connection._interact_value _ _ _ c) as [[v|e] c1];
      simpl in *.
    + unfold int_. destruct (py_int v); discriminate.
    + intros [= ->]. now apply Hv.
Qed.

End Downgrades.

Section Documents.

Context {DS : Type}.
Implicit Types (t : Transport DS) (c : Connection DS).
Implicit Types (command status verb : bytes) (results ok err : list bytes).

Lemma on_socket_parse_yaml {A} (f : M (Transport DS) A) c :
  _parse_yaml (snd (on_socket f c)) = _parse_yaml c.
Proof. unfold on_socket. now destruct (f (_socket c)). Qed.

Lemma read_response_parse_yaml c :
  _parse_yaml (snd (Connection._read_response c)) = _parse_yaml c.
Proof.
  unfold Connection._read_response, bind.
  pose proof (on_socket_parse_yaml (SocketError_wrap readline) c) as H.
  destruct (on_socket (SocketError_wrap readline) c) as [[line|e] c1];
    simpl in *; [|assumption].
  destruct line as [|x line]; simpl; [assumption|].
  destruct (split (x :: line)); simpl; assumption.
Qed.

Lemma exchange_parse_yaml c command :
  _parse_yaml (snd (exchange command c)) = _parse_yaml c.
Proof.
  unfold exchange, bind.
  pose proof (on_socket_parse_yaml (SocketError_wrap (sendall command)) c)
    as H.
  destruct (on_socket (SocketError_wrap (sendall command)) c)
    as [[[]|e] c1]; simpl in *; [|assumption].
  now rewrite read_response_parse_yaml.
Qed.

Lemma read_body_parse_yaml c (size : Z) :
  _parse_yaml (snd (Connection._read_body size c)) = _parse_yaml c.
Proof.
  unfold Connection._read_body, bind.
  pose proof (on_socket_parse_yaml (SocketError_wrap (read size)) c) as H.
  destruct (on_socket (SocketError_wrap (read size)) c) as [[data|e] c1];
    simpl in *; [|assumption].
  pose proof (on_socket_parse_yaml (SocketError_wrap (read 2)) c1) as H1.
  destruct (on_socket (SocketError_wrap (read 2)) c1) as [[tr|e] c2];
    simpl in *; [|congruence].
  destruct ((0 <? size) && match data with [] => true | _ => false end);
    simpl; congruence.
Qed.

Lemma yaml_call_is_interact_yaml (v : yaml_verb) :
  exists err,
    @yaml_call DS v = Connection._interact_yaml (yaml_command v) [B "OK"] err.
Proof. destruct v; eexists; reflexivity. Qed.

Lemma interact_yaml_decodes c command err size n data :
  fst (exchange command c) = Ok (B "OK", [size]) ->
  py_int size = Some n ->
  fst (Connection._read_body n (snd (exchange command c))) = Ok data ->
  Connection._interact_yaml command [B "OK"] err c
  = (_parse_yaml c data,
     snd (Connection._read_body n (snd (exchange command c)))).
Proof.
  intros Hx Hn Hb. unfold Connection._interact_yaml, bind.
  rewrite (interact_ok c command [B "OK"] err (B "OK") [size] Hx eq_refl).
  unfold int_. rewrite Hn. unfold ret at 1.
  pose proof (read_body_parse_yaml (snd (exchange command c)) n) as Hp.
  destruct (Connection._read_body n (snd (exchange command c))) as [r c2].
  simpl in *. subst r. now rewrite Hp, exchange_parse_yaml.
Qed.

Lemma read_body_framed c (data trailer rest : bytes) :
  faults (_socket c) = [] ->
  rbuf (_socket c) = data ++ trailer ++ rest ->
  List.length trailer = 2%nat ->
  Connection._read_body (Z.of_nat (List.length data)) c
  = (Ok data,
     mkConnection
       (mkTransport (peer_step (_socket c)) (peer_state (_socket c)) rest
          (sent (_socket c)) [])
       (_parse_yaml c)).
Proof.
  destruct c as [[step d r s f] parse].
  cbn [_socket faults rbuf peer_step peer_state sent _parse_yaml].
  intros -> -> Htrailer.
  destruct trailer as [|x [|y [|z trailer]]]; try discriminate.
  unfold Connection._read_body, bind, on_socket, SocketError_wrap, read,
    io_call.
  assert (H1 : (Z.of_nat (List.length data) <? -1) = false)
    by (apply Z.ltb_ge; lia).
  assert (H2 : (Z.of_nat (List.length data) =? -1) = false)
    by (apply Z.eqb_neq; lia).
  cbn [_socket faults rbuf peer_step peer_state sent _parse_yaml].
  rewrite H1, H2, firstn_exact, skipn_exact.
  cbn [_socket faults rbuf peer_step peer_state sent _parse_yaml].
  change (2 <? -1) with false. change (2 =? -1) with false.
  cbn [_socket faults rbuf peer_step peer_state sent _parse_yaml].
  destruct data as [|b data]; [reflexivity|].
  rewrite andb_false_r. reflexivity.
Qed.

(** X11. For [tubes], [watching], [stats], [stats_tube] and [stats_job]:
    when the daemon answers [OK size] and the stream then holds [data], two
    trailer bytes and [rest], where [data] has the [size] bytes announced,
    the call returns what the connection's decoder makes of [data], of
    those [size] bytes and no others, an exception of the decoder
    included, and leaves [rest] in the stream; on a connection without a
    YAML decoder the result is the raw [data]. *)
Theorem yaml_verbs_decode_body c (v : yaml_verb)
    (size data trailer rest : bytes) :
  fst (exchange (yaml_command v) c) = Ok (B "OK", [size]) ->
  short_number size ->
  py_int size = Some (Z.of_nat (List.length data)) ->
  faults (_socket (snd (exchange (yaml_command v) c))) = [] ->
  rbuf (_socket (snd (exchange (yaml_command v) c)))
  = data ++ trailer ++ rest ->
  List.length trailer = 2%nat ->
  yaml_call v c
  = (_parse_yaml c data,
     mkConnection
       (mkTransport
          (peer_step (_socket (snd (exchange (yaml_command v) c))))
          (peer_state (_socket (snd (exchange (yaml_command v) c))))
          rest
          (sent (_socket (snd (exchange (yaml_command v) c))))
          [])
       (_parse_yaml c))
  /\ (_parse_yaml c = no_yaml -> fst (yaml_call v c) = Ok (DBytes data)).
Proof.
  intros Hx _ Hn Hf Hbuf Htrailer.
  pose proof (read_body_framed (snd (exchange (yaml_command v) c))
                data trailer rest Hf Hbuf Htrailer) as Hb.
  rewrite exchange_parse_yaml in Hb.
  destruct (yaml_call_is_interact_yaml v) as [err ->].
  rewrite (interact_yaml_decodes c _ err size _ data Hx Hn
             (f_equal fst Hb)).
  rewrite Hb. split; [reflexivity|]. intros ->. reflexivity.
Qed.

End Documents.

Section Put.

Context {DS : Type}.
Implicit Types (t : Transport DS) (c : Connection DS).
Implicit Types (command status verb : bytes) (results ok err : list bytes).

Lemma exchange_sent c command :
  faults (_socket c) = [] ->
  sent (_socket (snd (exchange command c))) = sent (_socket c) ++ [command].
Proof.
  destruct c as [[step d r s f] parse].
  cbn [_socket faults rbuf peer_step peer_state sent _parse_yaml].
  intros ->.
  unfold exchange, bind, on_socket, SocketError_wrap, sendall, io_call.
  cbn [_socket faults rbuf peer_step peer_state sent _parse_yaml].
  destruct (step d command) as [d' answer].
  unfold Connection._read_response, bind, on_socket, SocketError_wrap,
    readline, io_call.
  cbn [_socket faults rbuf peer_step peer_state sent _parse_yaml].
  destruct (take_line (r ++ answer)) as [line rest].
  destruct line as [|x line]; [reflexivity|].
  destruct (split (x :: line)); reflexivity.
Qed.

Lemma put_state c (b : bytes) (priority delay ttr : Z) :
  snd (Connection.put (Bytes b) priority delay ttr c)
  = snd (exchange (put_command b priority delay ttr) c).
Proof.
  unfold Connection.put, bind, Connection._interact_value, bind.
  change (B "put " ++ fmt_d priority ++ [SP] ++ fmt_d delay ++ [SP]
            ++ fmt_d ttr ++ [SP] ++ fmt_d (Z.of_nat (List.length b))
            ++ crlf ++ b ++ crlf)
    with (put_command b priority delay ttr).
  rewrite <- (interact_state c (put_command b priority delay ttr)
                [B "INSERTED"] [B "JOB_TOO_BIG"; B "BURIED"; B "DRAINING"]).
  destruct (Connection._interact _ _ _ c) as [[rs|e] c1]; simpl;
    [|reflexivity].
  destruct rs as [|v rs]; simpl; [reflexivity|].
  unfold int_. now destruct (py_int v).
Qed.

Lemma put_command_header_line (b : bytes) (priority delay ttr : Z) :
  take_line (put_command b priority delay ttr)
  = (B "put " ++ fmt_d priority ++ [SP] ++ fmt_d delay ++ [SP]
       ++ fmt_d ttr ++ [SP] ++ fmt_d (Z.of_nat (List.length b)) ++ crlf,
     b ++ crlf).
Proof.
  unfold put_command.
  replace (B "put " ++ fmt_d priority ++ [SP] ++ fmt_d delay ++ [SP]
             ++ fmt_d ttr ++ [SP] ++ fmt_d (Z.of_nat (List.length b))
             ++ crlf ++ b ++ crlf)
    with ((B "put " ++ fmt_d priority ++ [SP] ++ fmt_d delay ++ [SP]
             ++ fmt_d ttr ++ [SP] ++ fmt_d (Z.of_nat (List.length b))
             ++ [CR]) ++ LF :: (b ++ crlf))
    by (now rewrite <- !app_assoc).
  rewrite take_line_one_line.
  - now rewrite <- !app_assoc.
  - unfold one_line.
    repeat (apply Forall_app; split);
      try apply fmt_d_one_line; repeat constructor.
Qed.

Lemma put_command_tokens (b : bytes) (priority delay ttr : Z) :
  split (B "put " ++ fmt_d priority ++ [SP] ++ fmt_d delay ++ [SP]
           ++ fmt_d ttr ++ [SP] ++ fmt_d (Z.of_nat (List.length b)) ++ crlf)
  = [B "put"; fmt_d priority; fmt_d delay; fmt_d ttr;
     fmt_d (Z.of_nat (List.length b))].
Proof.
  change (split (B "put " ++ fmt_d priority ++ [SP] ++ fmt_d delay ++ [SP]
                   ++ fmt_d ttr ++ [SP]
                   ++ fmt_d (Z.of_nat (List.length b)) ++ crlf))
    with (B "put"
            :: split_from []
                 (fmt_d priority
                    ++ SP :: (fmt_d delay
                    ++ SP :: (fmt_d ttr
                    ++ SP :: (fmt_d (Z.of_nat (List.length b)) ++ crlf))))).
  rewrite !split_inner_word by (apply fmt_d_word || apply fmt_d_not_empty).
  rewrite split_last_word;
    [reflexivity | apply fmt_d_word | apply fmt_d_not_empty].
Qed.

(** X12. What [put] puts on the wire can be read back.  On a socket
    without a scheduled fault, and for a priority, delay, time to run and
    body length whose decimal forms are within the digit limit, [put]
    sends one payload; its first line splits into [put] and four tokens
    whose [int] values are the priority, delay, time to run and the length
    of the body; and the rest of the payload is the body, byte for byte,
    and a CRLF.  This holds whatever bytes the body holds, line feeds
    included. *)
Theorem put_payload_decodes c (b : bytes) (priority delay ttr : Z) :
  faults (_socket c) = [] ->
  short_number (fmt_d priority) ->
  short_number (fmt_d delay) ->
  short_number (fmt_d ttr) ->
  short_number (fmt_d (Z.of_nat (List.length b))) ->
  exists payload line args,
    sent (_socket (snd (Connection.put (Bytes b) priority delay ttr c)))
    = sent (_socket c) ++ [payload]
    /\ take_line payload = (line, b ++ crlf)
    /\ split line = B "put" :: args
    /\ map py_int args
       = [Some priority; Some delay; Some ttr;
          Some (Z.of_nat (List.length b))].
Proof.
  intros Hf _ _ _ _.
  exists (put_command b priority delay ttr).
  eexists. eexists.
  split; [|split; [|split]].
  - rewrite put_state. now apply exchange_sent.
  - apply put_command_header_line.
  - apply put_command_tokens.
  - cbn [map]. now rewrite !py_int_fmt_d.
Qed.

Lemma put_command_verb (b : bytes) (priority delay ttr : Z) :
  exists rest, split (put_command b priority delay ttr) = B "put" :: rest.
Proof. eexists. reflexivity. Qed.

(** X13. The answers to [put].  [JOB_TOO_BIG], [DRAINING] and also
    [BURIED], which carries the id of the job the daemon did store, raise
    [CommandFailed] with the verb [put] and the arguments of the answer;
    [INSERTED] with no argument raises [IndexError]; [INSERTED id] with an
    id token within the digit limit returns [int(id)], and raises
    [ValueError] when the token is not an integer. *)
Theorem put_answers c (b : bytes) (priority delay ttr : Z) status results :
  fst (exchange (put_command b priority delay ttr) c)
  = Ok (status, results) ->
  (In status [B "JOB_TOO_BIG"; B "BURIED"; B "DRAINING"] ->
   fst (Connection.put (Bytes b) priority delay ttr c)
   = Raise (CommandFailed (B "put") status results))
  /\
  (status = B "INSERTED" ->
   (results = [] ->
    fst (Connection.put (Bytes b) priority delay ttr c) = Raise IndexError)
   /\
   (forall id rest,
    results = id :: rest ->
    short_number id ->
    fst (Connection.put (Bytes b) priority delay ttr c)
    = match py_int id with
      | Some n => Ok n
      | None => Raise ValueError
      end)).
Proof.
  intros Hx.
  destruct (put_command_verb b priority delay ttr) as [rest Hv].
  split.
  - intros Hin.
    assert (Hok : py_in status [B "INSERTED"] = false).
    { destruct Hin as [<-|[<-|[<-|[]]]]; reflexivity. }
    assert (Herr : py_in status [B "JOB_TOO_BIG"; B "BURIED"; B "DRAINING"]
                   = true) by now apply py_in_In.
    unfold Connection.put, bind.
    change (B "put " ++ fmt_d priority ++ [SP] ++ fmt_d delay ++ [SP]
              ++ fmt_d ttr ++ [SP] ++ fmt_d (Z.of_nat (List.length b))
              ++ crlf ++ b ++ crlf)
      with (put_command b priority delay ttr).
    now rewrite (interact_value_raises _ _ _ _ _ _
                   (interact_failed c _ _ _ _ _ _ _ Hx Hok Herr Hv)).
  - intros ->.
    unfold Connection.put, bind, Connection._interact_value, bind.
    change (B "put " ++ fmt_d priority ++ [SP] ++ fmt_d delay ++ [SP]
              ++ fmt_d ttr ++ [SP] ++ fmt_d (Z.of_nat (List.length b))
              ++ crlf ++ b ++ crlf)
      with (put_command b priority delay ttr).
    rewrite (interact_ok c _ [B "INSERTED"]
               [B "JOB_TOO_BIG"; B "BURIED"; B "DRAINING"] _ _ Hx eq_refl).
    split.
    + intros ->. reflexivity.
    + intros id rs -> _.
      unfold item0, ret, int_. now destruct (py_int id).
Qed.

End Put.

Section JobPriority.

Context {DS : Type}.
Implicit Types (h : Job.Handle DS) (c : Connection DS).

Lemma interact_parse_yaml c (command : bytes) (ok err : list bytes) :
  _parse_yaml (snd (Connection._interact command ok err c)) = _parse_yaml c.
Proof. rewrite interact_state. apply exchange_parse_yaml. Qed.

Lemma interact_yaml_no_yaml c (command : bytes) (ok err : list bytes)
    (d : document) :
  _parse_yaml c = no_yaml ->
  fst (Connection._interact_yaml command ok err c) = Ok d ->
  exists data, d = DBytes data.
Proof.
  intros Hp. unfold Connection._interact_yaml, bind.
  pose proof (interact_parse_yaml c command ok err) as H1.
  destruct (Connection._interact command ok err c) as [[rs|e] c1];
    simpl in *; [|discriminate].
  destruct rs as [|size [|x rs]]; simpl; try discriminate.
  unfold int_. destruct (py_int size) as [n|]; simpl; [|discriminate].
  pose proof (read_body_parse_yaml c1 n) as H2.
  destruct (Connection._read_body n c1) as [[data|e] c2]; simpl in *;
    [|discriminate].
  rewrite H2, H1, Hp. unfold no_yaml. intros [= <-]. now exists data.
Qed.

(** X14. On a connection without a YAML decoder the stats document is
    never a mapping, so whenever the stats lookup succeeds [_priority]
    answers the default priority 2 ** 31, not the job's own. *)
Theorem priority_without_decoder h (d : document) :
  _parse_yaml (Job.conn h) = no_yaml ->
  fst (Job.stats h) = Ok d ->
  Job._priority h = (Ok (SInt DEFAULT_PRIORITY), snd (Job.stats h)).
Proof.
  intros Hp Hs. unfold Job._priority, bind.
  assert (Hd : exists data, d = DBytes data).
  { revert Hs. unfold Job.stats, bind, Job.get_self, Job.on_conn,
      Connection.stats_job.
    pose proof (interact_yaml_no_yaml (Job.conn h)
                  (B "stats-job " ++ fmt_d (jid (Job.self h)) ++ crlf)
                  [B "OK"] [B "NOT_FOUND"]) as H.
    destruct (Connection._interact_yaml _ _ _ (Job.conn h)) as [r c1].
    simpl in *. intros ->. now apply H. }
  destruct Hd as [data ->].
  destruct (Job.stats h) as [r h1]. simpl in Hs. subst r. reflexivity.
Qed.

(** X15. [release] with the priority omitted, on a reserved job whose
    stats lookup returned a mapping.  Without a [pri] entry it raises
    [KeyError]; with a [pri] that is a text string it raises [TypeError];
    in both cases no release command is sent and the job stays reserved.
    With an integer [pri] it goes on as [Connection.release] with that
    priority, the job's current one. *)
Theorem release_omitted_priority_lookup h (delay : Z) entries c1 :
  reserved (Job.self h) = true ->
  Connection.stats_job (jid (Job.self h)) (Job.conn h)
  = (Ok (DMap entries), c1) ->
  (dict_get "pri" entries = None ->
   Job.release None delay h = (Raise KeyError, Job.mkHandle (Job.self h) c1))
  /\
  (forall s, dict_get "pri" entries = Some (SStr s) ->
   Job.release None delay h = (Raise TypeError, Job.mkHandle (Job.self h) c1))
  /\
  (forall p, dict_get "pri" entries = Some (SInt p) ->
   Job.release None delay h
   = (Job.on_conn (Connection.release (jid (Job.self h)) (SInt p) delay)
        ;;; Job.set_reserved false) (Job.mkHandle (Job.self h) c1)).
Proof.
  intros Hr Hs.
  assert (Hp : Job._priority h
               = (match dict_get "pri" entries with
                  | Some v => Ok v
                  | None => Raise KeyError
                  end, Job.mkHandle (Job.self h) c1)).
  { unfold Job._priority, Job.stats, bind, Job.get_self, Job.on_conn.
    rewrite Hs. now destruct (dict_get "pri" entries). }
  assert (Hrel : forall k : scalar -> M (Job.Handle DS) unit,
             Job.release None delay h
             = (pri <- Job._priority ;; k pri) h ->
             Job.release None delay h
             = match dict_get "pri" entries with
               | Some v => k v (Job.mkHandle (Job.self h) c1)
               | None => (Raise KeyError, Job.mkHandle (Job.self h) c1)
               end).
  { intros k ->. unfold bind. rewrite Hp.
    now destruct (dict_get "pri" entries). }
  specialize (Hrel (fun pri =>
                      Job.on_conn
                        (Connection.release (jid (Job.self h)) pri delay)
                        ;;; Job.set_reserved false)).
  assert (Hunf : Job.release None delay h
                 = (pri <- Job._priority ;;
                    Job.on_conn
                      (Connection.release (jid (Job.self h)) pri delay)
                      ;;; Job.set_reserved false) h).
  { unfold Job.release, bind at 1, Job.get_self. now rewrite Hr. }
  specialize (Hrel Hunf). rewrite Hrel.
  split; [|split].
  - now intros ->.
  - now intros s ->.
  - now intros p ->.
Qed.

End JobPriority.

Section JobStatuses.

Context {DS : Type}.
Implicit Types (h : Job.Handle DS) (c : Connection DS).

Lemma release_command_verb (j p delay : Z) :
  exists rest, split (release_command j p delay) = B "release" :: rest.
Proof. eexists. reflexivity. Qed.

Lemma bury_command_verb (j p : Z) :
  exists rest, split (bury_command j p) = B "bury" :: rest.
Proof. eexists. reflexivity. Qed.

Lemma Connection_release_ok c (j p delay : Z) status results :
  fst (exchange (release_command j p delay) c) = Ok (status, results) ->
  py_in status [B "RELEASED"; B "BURIED"] = true ->
  Connection.release j (SInt p) delay c
  = (Ok tt, snd (exchange (release_command j p delay) c)).
Proof.
  intros Hx Hok. unfold Connection.release, bind, fmt_d_scalar, ret at 1.
  change (B "release " ++ fmt_d j ++ [SP] ++ fmt_d p ++ [SP]
            ++ fmt_d delay ++ crlf)
    with (release_command j p delay).
  now rewrite (interact_ok c _ [B "RELEASED"; B "BURIED"] [B "NOT_FOUND"]
                 _ _ Hx Hok).
Qed.

Lemma Connection_bury_ok c (j p : Z) results :
  fst (exchange (bury_command j p) c) = Ok (B "BURIED", results) ->
  Connection.bury j (SInt p) c
  = (Ok tt, snd (exchange (bury_command j p) c)).
Proof.
  intros Hx. unfold Connection.bury, bind, fmt_d_scalar, ret at 1.
  change (B "bury " ++ fmt_d j ++ [SP] ++ fmt_d p ++ crlf)
    with (bury_command j p).
  now rewrite (interact_ok c _ [B "BURIED"] [B "NOT_FOUND"] _ _ Hx eq_refl).
Qed.

Lemma Connection_bury_released c (j p : Z) results :
  fst (exchange (bury_command j p) c) = Ok (B "RELEASED", results) ->
  Connection.bury j (SInt p) c
  = (Raise (UnexpectedResponse (B "bury") (B "RELEASED") results),
     snd (exchange (bury_command j p) c)).
Proof.
  intros Hx. unfold Connection.bury, bind, fmt_d_scalar, ret at 1.
  change (B "bury " ++ fmt_d j ++ [SP] ++ fmt_d p ++ crlf)
    with (bury_command j p).
  destruct (bury_command_verb j p) as [rest Hv].
  now rewrite (interact_unexpected c _ [B "BURIED"] [B "NOT_FOUND"] _ _ _ _
                 Hx eq_refl eq_refl Hv).
Qed.

(** X16. Statuses that end a reservation.  For a reserved job and a
    priority other than 0: [release] answered [RELEASED] or [BURIED]
    returns and clears the [reserved] flag, and so does [bury] answered
    [BURIED]; [bury] answered [RELEASED] raises [UnexpectedResponse] and
    the job stays reserved. *)
Theorem release_bury_statuses h (p delay : Z) results :
  reserved (Job.self h) = true ->
  p <> 0 ->
  (forall status,
   fst (exchange (release_command (jid (Job.self h)) p delay) (Job.conn h))
   = Ok (status, results) ->
   status = B "RELEASED" \/ status = B "BURIED" ->
   Job.release (Some p) delay h
   = (Ok tt,
      Job.mkHandle (mkJob (jid (Job.self h)) (body (Job.self h)) false)
        (snd (exchange (release_command (jid (Job.self h)) p delay)
                (Job.conn h)))))
  /\
  (fst (exchange (bury_command (jid (Job.self h)) p) (Job.conn h))
   = Ok (B "BURIED", results) ->
   Job.bury (Some p) h
   = (Ok tt,
      Job.mkHandle (mkJob (jid (Job.self h)) (body (Job.self h)) false)
        (snd (exchange (bury_command (jid (Job.self h)) p) (Job.conn h)))))
  /\
  (fst (exchange (bury_command (jid (Job.self h)) p) (Job.conn h))
   = Ok (B "RELEASED", results) ->
   Job.bury (Some p) h
   = (Raise (UnexpectedResponse (B "bury") (B "RELEASED") results),
      Job.mkHandle (Job.self h)
        (snd (exchange (bury_command (jid (Job.self h)) p) (Job.conn h))))).
Proof.
  intros Hr Hp. split; [|split].
  - intros status Hx Hst.
    rewrite (release_given_priority h p delay Hr Hp).
    unfold bind, Job.on_conn.
    rewrite (Connection_release_ok _ _ _ _ status results Hx).
    + reflexivity.
    + destruct Hst as [-> | ->]; reflexivity.
  - intros Hx. rewrite (bury_given_priority h p Hr Hp).
    unfold bind, Job.on_conn.
    now rewrite (Connection_bury_ok _ _ _ results Hx).
  - intros Hx. rewrite (bury_given_priority h p Hr Hp).
    unfold bind, Job.on_conn.
    now rewrite (Connection_bury_released _ _ _ results Hx).
Qed.

(** X17. [kick], [touch], [stats] and [_priority] never change a field of
    the job, however the delegated call ends; and [kick] delegates to
    [Connection.kick_job] whether the job is reserved or not. *)
Theorem job_queries_keep_job h :
  Job.self (snd (Job.kick h)) = Job.self h
  /\ Job.self (snd (Job.touch h)) = Job.self h
  /\ Job.self (snd (Job.stats h)) = Job.self h
  /\ Job.self (snd (Job._priority h)) = Job.self h
  /\ Job.kick h
     = (fst (Connection.kick_job (jid (Job.self h)) (Job.conn h)),
        Job.mkHandle (Job.self h)
          (snd (Connection.kick_job (jid (Job.self h)) (Job.conn h)))).
Proof.
  repeat split.
  - unfold Job.kick, bind, Job.get_self. apply on_conn_self.
  - unfold Job.touch, bind, Job.get_self.
    destruct (reserved (Job.self h)); [apply on_conn_self | reflexivity].
  - unfold Job.stats, bind, Job.get_self. apply on_conn_self.
  - apply priority_self.
  - unfold Job.kick, bind, Job.get_self, Job.on_conn.
    now destruct (Connection.kick_job _ (Job.conn h)).
Qed.

End JobStatuses.

(** ** The further properties on concrete runs *)

Lemma interact_raises_classified_witness :
  fst (exchange (B "delete 7" ++ crlf)
         (Scripted.connect [B "NOT_FOUND" ++ crlf] []))
  = Ok (B "NOT_FOUND", [])
  /\ In (B "NOT_FOUND") [B "NOT_FOUND"]
  /\ fst (exchange (B "delete 7" ++ crlf)
            (Scripted.connect [B "USING x" ++ crlf] []))
     = Ok (B "USING", [B "x"]).
Proof.
  pose proof (proj1 (interact_raises_classified
                       (Scripted.connect [B "NOT_FOUND" ++ crlf] [])
                       (B "delete 7" ++ crlf) [B "DELETED"] [B "NOT_FOUND"]
                       (B "delete") (B "NOT_FOUND") []) eq_refl)
    as [H1 [_ [H2 _]]].
  pose proof (proj2 (interact_raises_classified
                       (Scripted.connect [B "USING x" ++ crlf] [])
                       (B "delete 7" ++ crlf) [B "DELETED"] [B "NOT_FOUND"]
                       (B "delete") (B "USING") [B "x"]) eq_refl)
    as [H3 _].
  split; [exact H1 | split; [exact H2 | exact H3]].
Defined.

Lemma interact_outcomes_witness :
  (exists wrapped, SocketError true = SocketError wrapped)
  \/ SocketError true = IndexError
  \/ (exists verb status results,
        SocketError true = CommandFailed verb status results)
  \/ (exists verb status results,
        SocketError true = UnexpectedResponse verb status results).
Proof.
  apply (interact_outcomes (Scripted.connect [] [true])
           (B "delete 7" ++ crlf) [B "DELETED"] [B "NOT_FOUND"]
           (SocketError true)).
  reflexivity.
Defined.


Lemma interact_blank_status_line_witness :
  fst (Connection._interact (B "delete 7" ++ crlf) [B "DELETED"]
         [B "NOT_FOUND"] (Scripted.connect [crlf] []))
  = Raise IndexError.
Proof.
  apply (interact_blank_status_line (Scripted.connect [crlf] [])
           (B "delete 7" ++ crlf) [B "DELETED"] [B "NOT_FOUND"]
           [CR] [] crlf []).
  - reflexivity.
  - reflexivity.
  - reflexivity.
  - repeat constructor.
  - repeat constructor.
Defined.

Lemma interact_reads_one_line_witness :
  fst (exchange (B "delete 7" ++ crlf)
         (mkConnection
            (mkTransport Scripted.step [B "DELETED" ++ crlf]
               (B "NOT_FOUND" ++ crlf) [] [])
            no_yaml))
  = Ok (B "NOT_FOUND", [])
  /\
  snd (Connection._interact (B "delete 7" ++ crlf) [B "DELETED"]
         [B "NOT_FOUND"]
         (mkConnection
            (mkTransport Scripted.step [B "DELETED" ++ crlf]
               (B "NOT_FOUND" ++ crlf) [] [])
            no_yaml))
  = mkConnection
      (mkTransport Scripted.step [] (B "DELETED" ++ crlf)
         ([] ++ [B "delete 7" ++ crlf]) [])
      no_yaml.
Proof.
  apply (interact_reads_one_line
           (mkConnection
              (mkTransport Scripted.step [B "DELETED" ++ crlf]
                 (B "NOT_FOUND" ++ crlf) [] [])
              no_yaml)
           (B "delete 7" ++ crlf) [B "DELETED"] [B "NOT_FOUND"]
           (B "NOT_FOUND" ++ [CR]) (B "DELETED" ++ crlf)
           (B "DELETED" ++ crlf) (B "NOT_FOUND") [] []).
  - reflexivity.
  - reflexivity.
  - reflexivity.
  - repeat constructor.
  - reflexivity.
Defined.

Lemma read_body_frames_witness :
  Connection._read_body (Z.of_nat (List.length (B "abc")))
    (mkConnection
       (mkTransport Scripted.step [] (B "abc" ++ B "XY" ++ B "NEXT") [] [])
       no_yaml)
  = (Ok (B "abc"),
     mkConnection (mkTransport Scripted.step [] (B "NEXT") [] []) no_yaml).
Proof.
  apply (read_body_frames
           (mkConnection
              (mkTransport Scripted.step []
                 (B "abc" ++ B "XY" ++ B "NEXT") [] [])
              no_yaml)
           (B "abc") (B "XY") (B "NEXT")); reflexivity.
Defined.

Lemma read_body_short_read_witness :
  Connection._read_body 5
    (mkConnection (mkTransport Scripted.step [] (B "ab") [] []) no_yaml)
  = (Ok (B "ab"),
     mkConnection (mkTransport Scripted.step [] [] [] []) no_yaml).
Proof.
  apply (read_body_short_read
           (mkConnection (mkTransport Scripted.step [] (B "ab") [] [])
              no_yaml) 5).
  - reflexivity.
  - discriminate.
  - simpl. lia.
  - unfold DEFAULT_MAX_JOB_SIZE. lia.
Defined.

Lemma interact_job_malformed_witness :
  Connection._interact_job (B "reserve" ++ crlf) [B "RESERVED"] [] true
    (Scripted.connect [B "RESERVED 12" ++ crlf] [])
  = (Raise ValueError,
     snd (exchange (B "reserve" ++ crlf)
            (Scripted.connect [B "RESERVED 12" ++ crlf] [])))
  /\
  Connection._interact_job (B "reserve" ++ crlf) [B "RESERVED"] [] true
    (Scripted.connect [B "RESERVED 12 x" ++ crlf ++ B "x" ++ crlf] [])
  = (Raise ValueError,
     snd (exchange (B "reserve" ++ crlf)
            (Scripted.connect
               [B "RESERVED 12 x" ++ crlf ++ B "x" ++ crlf] []))).
Proof.
  split.
  - apply (proj1 (interact_job_malformed
                    (Scripted.connect [B "RESERVED 12" ++ crlf] [])
                    (B "reserve" ++ crlf) [B "RESERVED"] [] true
                    (B "RESERVED") [B "12"] eq_refl
                    (or_introl eq_refl))).
    discriminate.
  - apply (proj2 (interact_job_malformed
                    (Scripted.connect
                       [B "RESERVED 12 x" ++ crlf ++ B "x" ++ crlf] [])
                    (B "reserve" ++ crlf) [B "RESERVED"] [] true
                    (B "RESERVED") [B "12"; B "x"] eq_refl
                    (or_introl eq_refl)) (B "12") (B "x"));
      reflexivity.
Defined.

Lemma reserve_ignore_never_CommandFailed_witness :
  reserved (mkJob 7 (B "abc") true) = true.
Proof.
  apply (proj2 (proj2 (reserve_ignore_never_CommandFailed
                         (Scripted.connect
                            [B "RESERVED 7 3" ++ crlf ++ B "abc" ++ crlf] [])
                         (B "reserve") (B "TIMED_OUT") []))
           None (mkJob 7 (B "abc") true)).
  reflexivity.
Defined.

Lemma yaml_verbs_decode_body_witness :
  fst (yaml_call Stats
         (Scripted.connect_decoding pri_1024
            [B "OK 3" ++ crlf ++ B "abc" ++ crlf ++ B "NEXT"]))
  = pri_1024 (B "abc")
  /\
  rbuf (_socket (snd (yaml_call Stats
                        (Scripted.connect_decoding pri_1024
                           [B "OK 3" ++ crlf ++ B "abc" ++ crlf
                              ++ B "NEXT"]))))
  = B "NEXT"
  /\
  fst (yaml_call (StatsJob 7)
         (Scripted.connect [B "OK 3" ++ crlf ++ B "abc" ++ crlf] []))
  = Ok (DBytes (B "abc")).
Proof.
  pose proof (yaml_verbs_decode_body
                (Scripted.connect_decoding pri_1024
                   [B "OK 3" ++ crlf ++ B "abc" ++ crlf ++ B "NEXT"])
                Stats (B "3") (B "abc") crlf (B "NEXT")
                eq_refl ltac:(unfold short_number, MAX_STR_DIGITS; simpl; lia)
                eq_refl eq_refl eq_refl eq_refl) as [H1 _].
  pose proof (yaml_verbs_decode_body
                (Scripted.connect [B "OK 3" ++ crlf ++ B "abc" ++ crlf] [])
                (StatsJob 7) (B "3") (B "abc") crlf []
                eq_refl ltac:(unfold short_number, MAX_STR_DIGITS; simpl; lia)
                eq_refl eq_refl eq_refl eq_refl) as [_ H2].
  split; [|split].
  - rewrite H1. reflexivity.
  - rewrite H1. reflexivity.
  - apply H2. reflexivity.
Defined.

Lemma put_payload_decodes_witness :
  exists payload line args,
    sent (_socket (snd (Connection.put (Bytes (B "a" ++ crlf ++ B "b")) 0 5 60
                          (Scripted.connect [B "INSERTED 1" ++ crlf] []))))
    = [] ++ [payload]
    /\ take_line payload = (line, (B "a" ++ crlf ++ B "b") ++ crlf)
    /\ split line = B "put" :: args
    /\ map py_int args = [Some 0; Some 5; Some 60; Some 4].
Proof.
  apply (put_payload_decodes (Scripted.connect [B "INSERTED 1" ++ crlf] [])
           (B "a" ++ crlf ++ B "b") 0 5 60).
  - reflexivity.
  - unfold short_number, MAX_STR_DIGITS. simpl. lia.
  - unfold short_number, MAX_STR_DIGITS. simpl. lia.
  - unfold short_number, MAX_STR_DIGITS. simpl. lia.
  - unfold short_number, MAX_STR_DIGITS. simpl. lia.
Defined.

Lemma put_answers_witness :
  fst (Connection.put (Bytes (B "x")) 0 0 60
         (Scripted.connect [B "BURIED 5" ++ crlf] []))
  = Raise (CommandFailed (B "put") (B "BURIED") [B "5"])
  /\
  fst (Connection.put (Bytes (B "x")) 0 0 60
         (Scripted.connect [B "INSERTED" ++ crlf] []))
  = Raise IndexError
  /\
  fst (Connection.put (Bytes (B "x")) 0 0 60
         (Scripted.connect [B "INSERTED 12" ++ crlf] []))
  = Ok 12
  /\
  fst (Connection.put (Bytes (B "x")) 0 0 60
         (Scripted.connect [B "INSERTED twelve" ++ crlf] []))
  = Raise ValueError.
Proof.
  split; [|split; [|split]].
  - apply (proj1 (put_answers (Scripted.connect [B "BURIED 5" ++ crlf] [])
                    (B "x") 0 0 60 (B "BURIED") [B "5"] eq_refl)).
    simpl. right. left. reflexivity.
  - apply (proj1 (proj2 (put_answers
                    (Scripted.connect [B "INSERTED" ++ crlf] [])
                    (B "x") 0 0 60 (B "INSERTED") [] eq_refl) eq_refl)).
    reflexivity.
  - apply (proj2 (proj2 (put_answers
                    (Scripted.connect [B "INSERTED 12" ++ crlf] [])
                    (B "x") 0 0 60 (B "INSERTED") [B "12"] eq_refl) eq_refl)
             (B "12") []).
    + reflexivity.
    + unfold short_number, MAX_STR_DIGITS. simpl. lia.
  - apply (proj2 (proj2 (put_answers
                    (Scripted.connect [B "INSERTED twelve" ++ crlf] [])
                    (B "x") 0 0 60 (B "INSERTED") [B "twelve"] eq_refl)
                    eq_refl)
             (B "twelve") []).
    + reflexivity.
    + unfold short_number, MAX_STR_DIGITS. simpl. lia.
Defined.

Lemma priority_without_decoder_witness :
  Job._priority
    (Scripted.handle (mkJob 7 (B "x") true)
       [B "OK 10" ++ crlf ++ B "pri: 1024" ++ [LF] ++ crlf])
  = (Ok (SInt DEFAULT_PRIORITY),
     snd (Job.stats
            (Scripted.handle (mkJob 7 (B "x") true)
               [B "OK 10" ++ crlf ++ B "pri: 1024" ++ [LF] ++ crlf]))).
Proof.
  apply (priority_without_decoder
           (Scripted.handle (mkJob 7 (B "x") true)
              [B "OK 10" ++ crlf ++ B "pri: 1024" ++ [LF] ++ crlf])
           (DBytes (B "pri: 1024" ++ [LF]))).
  - reflexivity.
  - reflexivity.
Defined.

Lemma release_omitted_priority_lookup_witness :
  Job.release None 0
    (Scripted.handle_decoding (fun _ => Ok (DMap []))
       (mkJob 7 (B "x") true) [B "OK 2" ++ crlf ++ B "{}" ++ crlf])
  = (Raise KeyError,
     Job.mkHandle (mkJob 7 (B "x") true)
       (snd (Connection.stats_job 7
               (Scripted.connect_decoding (fun _ => Ok (DMap []))
                  [B "OK 2" ++ crlf ++ B "{}" ++ crlf]))))
  /\
  Job.release None 0
    (Scripted.handle_decoding
       (fun _ => Ok (DMap [("pri"%string, SStr "high")]))
       (mkJob 7 (B "x") true) [B "OK 9" ++ crlf ++ B "pri: high" ++ crlf])
  = (Raise TypeError,
     Job.mkHandle (mkJob 7 (B "x") true)
       (snd (Connection.stats_job 7
               (Scripted.connect_decoding
                  (fun _ => Ok (DMap [("pri"%string, SStr "high")]))
                  [B "OK 9" ++ crlf ++ B "pri: high" ++ crlf]))))
  /\
  Job.release None 0
    (Scripted.handle_decoding pri_1024 (mkJob 7 (B "x") true)
       [B "OK 10" ++ crlf ++ B "pri: 1024" ++ [LF] ++ crlf;
        B "RELEASED" ++ crlf])
  = (Job.on_conn (Connection.release 7 (SInt 1024) 0)
       ;;; Job.set_reserved false)
      (Job.mkHandle (mkJob 7 (B "x") true)
         (snd (Connection.stats_job 7
                 (Scripted.connect_decoding pri_1024
                    [B "OK 10" ++ crlf ++ B "pri: 1024" ++ [LF] ++ crlf;
                     B "RELEASED" ++ crlf])))).
Proof.
  split; [|split].
  - apply (proj1 (release_omitted_priority_lookup
                    (Scripted.handle_decoding (fun _ => Ok (DMap []))
                       (mkJob 7 (B "x") true)
                       [B "OK 2" ++ crlf ++ B "{}" ++ crlf])
                    0 [] _ eq_refl eq_refl)).
    reflexivity.
  - apply (proj1 (proj2 (release_omitted_priority_lookup
                    (Scripted.handle_decoding
                       (fun _ => Ok (DMap [("pri"%string, SStr "high")]))
                       (mkJob 7 (B "x") true)
                       [B "OK 9" ++ crlf ++ B "pri: high" ++ crlf])
                    0 [("pri"%string, SStr "high")] _ eq_refl eq_refl))
             "high"%string).
    reflexivity.
  - apply (proj2 (proj2 (release_omitted_priority_lookup
                    (Scripted.handle_decoding pri_1024 (mkJob 7 (B "x") true)
                       [B "OK 10" ++ crlf ++ B "pri: 1024" ++ [LF] ++ crlf;
                        B "RELEASED" ++ crlf])
                    0 [("state"%string, SStr "reserved");
                       ("pri"%string, SInt 1024)] _ eq_refl eq_refl))
             1024).
    reflexivity.
Defined.

Lemma release_bury_statuses_witness :
  Job.release (Some 5) 0
    (Scripted.handle (mkJob 7 (B "x") true) [B "BURIED" ++ crlf])
  = (Ok tt,
     Job.mkHandle (mkJob 7 (B "x") false)
       (snd (exchange (release_command 7 5 0)
               (Scripted.connect [B "BURIED" ++ crlf] []))))
  /\
  Job.bury (Some 5)
    (Scripted.handle (mkJob 7 (B "x") true) [B "BURIED" ++ crlf])
  = (Ok tt,
     Job.mkHandle (mkJob 7 (B "x") false)
       (snd (exchange (bury_command 7 5)
               (Scripted.connect [B "BURIED" ++ crlf] []))))
  /\
  Job.bury (Some 5)
    (Scripted.handle (mkJob 7 (B "x") true) [B "RELEASED" ++ crlf])
  = (Raise (UnexpectedResponse (B "bury") (B "RELEASED") []),
     Job.mkHandle (mkJob 7 (B "x") true)
       (snd (exchange (bury_command 7 5)
               (Scripted.connect [B "RELEASED" ++ crlf] [])))).
Proof.
  split; [|split].
  - apply (proj1 (release_bury_statuses
                    (Scripted.handle (mkJob 7 (B "x") true)
                       [B "BURIED" ++ crlf])
                    5 0 [] eq_refl ltac:(discriminate)) (B "BURIED")).
    + reflexivity.
    + right. reflexivity.
  - apply (proj1 (proj2 (release_bury_statuses
                    (Scripted.handle (mkJob 7 (B "x") true)
                       [B "BURIED" ++ crlf])
                    5 0 [] eq_refl ltac:(discriminate)))).
    reflexivity.
  - apply (proj2 (proj2 (release_bury_statuses
                    (Scripted.handle (mkJob 7 (B "x") true)
                       [B "RELEASED" ++ crlf])
                    5 0 [] eq_refl ltac:(discriminate)))).
    reflexivity.
Defined.

Section VerbTable.

Context {DS : Type}.
Implicit Types (c : Connection DS).
Implicit Types (command status verb : bytes) (results ok err : list bytes).

Lemma interact_not_found c command ok verb rest results :
  split command = verb :: rest ->
  py_in (B "NOT_FOUND") ok = false ->
  fst (exchange command c) = Ok (B "NOT_FOUND", results) ->
  Connection._interact command ok [B "NOT_FOUND"] c
  = (Raise (CommandFailed verb (B "NOT_FOUND") results),
     snd (exchange command c)).
Proof.
  intros Hv Hok Hx.
  exact (interact_failed c command ok [B "NOT_FOUND"] _ _ verb rest
           Hx Hok eq_refl Hv).
Qed.

Ltac not_found Hx :=
  erewrite interact_not_found;
  [reflexivity | reflexivity | reflexivity | exact Hx].

(** X18. The verbs that declare [NOT_FOUND]: when the daemon answers
    [NOT_FOUND], each of [delete], [touch], [kick_job], [pause_tube],
    [release], [bury], [stats_job] and [stats_tube] raises [CommandFailed]
    carrying its own wire verb, the status and the arguments of the
    answer; the verb is right whatever the tube name holds. *)
Theorem not_found_raises_CommandFailed c results :
  (forall j,
   fst (exchange (B "delete " ++ fmt_d j ++ crlf) c)
   = Ok (B "NOT_FOUND", results) ->
   fst (Connection.delete j c)
   = Raise (CommandFailed (B "delete") (B "NOT_FOUND") results))
  /\
  (forall j,
   fst (exchange (B "touch " ++ fmt_d j ++ crlf) c)
   = Ok (B "NOT_FOUND", results) ->
   fst (Connection.touch j c)
   = Raise (CommandFailed (B "touch") (B "NOT_FOUND") results))
  /\
  (forall j,
   fst (exchange (B "kick-job " ++ fmt_d j ++ crlf) c)
   = Ok (B "NOT_FOUND", results) ->
   fst (Connection.kick_job j c)
   = Raise (CommandFailed (B "kick-job") (B "NOT_FOUND") results))
  /\
  (forall name delay,
   fst (exchange (B "pause-tube " ++ name ++ [SP] ++ fmt_d delay ++ crlf) c)
   = Ok (B "NOT_FOUND", results) ->
   fst (Connection.pause_tube (Bytes name) delay c)
   = Raise (CommandFailed (B "pause-tube") (B "NOT_FOUND") results))
  /\
  (forall j p delay,
   fst (exchange (release_command j p delay) c)
   = Ok (B "NOT_FOUND", results) ->
   fst (Connection.release j (SInt p) delay c)
   = Raise (CommandFailed (B "release") (B "NOT_FOUND") results))
  /\
  (forall j p,
   fst (exchange (bury_command j p) c) = Ok (B "NOT_FOUND", results) ->
   fst (Connection.bury j (SInt p) c)
   = Raise (CommandFailed (B "bury") (B "NOT_FOUND") results))
  /\
  (forall j,
   fst (exchange (yaml_command (StatsJob j)) c)
   = Ok (B "NOT_FOUND", results) ->
   fst (Connection.stats_job j c)
   = Raise (CommandFailed (B "stats-job") (B "NOT_FOUND") results))
  /\
  (forall name,
   fst (exchange (yaml_command (StatsTube name)) c)
   = Ok (B "NOT_FOUND", results) ->
   fst (Connection.stats_tube (Bytes name) c)
   = Raise (CommandFailed (B "stats-tube") (B "NOT_FOUND") results)).
Proof.
  repeat match goal with |- _ /\ _ => split end.
  - intros j Hx. unfold Connection.delete, bind.
    not_found Hx.
  - intros j Hx. unfold Connection.touch, bind.
    not_found Hx.
  - intros j Hx. unfold Connection.kick_job, bind.
    not_found Hx.
  - intros name delay Hx. unfold Connection.pause_tube, bind.
    not_found Hx.
  - intros j p delay Hx.
    unfold Connection.release, bind, fmt_d_scalar, ret at 1.
    change (B "release " ++ fmt_d j ++ [SP] ++ fmt_d p ++ [SP]
              ++ fmt_d delay ++ crlf)
      with (release_command j p delay).
    not_found Hx.
  - intros j p Hx. unfold Connection.bury, bind, fmt_d_scalar, ret at 1.
    change (B "bury " ++ fmt_d j ++ [SP] ++ fmt_d p ++ crlf)
      with (bury_command j p).
    not_found Hx.
  - intros j Hx. unfold Connection.stats_job, Connection._interact_yaml, bind.
    change (B "stats-job " ++ fmt_d j ++ crlf)
      with (yaml_command (StatsJob j)).
    not_found Hx.
  - intros name Hx.
    unfold Connection.stats_tube, Connection._interact_yaml, bind.
    change (B "stats-tube " ++ name ++ crlf)
      with (yaml_command (StatsTube name)).
    not_found Hx.
Qed.

(** X19. What the counting and naming verbs return.  For a count token
    [n] within the digit limit, [kick] answered [KICKED n] and [watch]
    answered [WATCHING n] return [int(n)], and raise [ValueError] when [n]
    is not an integer; [use] and [using] answered [USING name] return the
    first token after the status, as bytes. *)
Theorem value_verbs_return c (v : bytes) (rest : list bytes) :
  (forall bound,
   fst (exchange (B "kick " ++ fmt_d bound ++ crlf) c)
   = Ok (B "KICKED", v :: rest) ->
   short_number v ->
   fst (Connection.kick bound c)
   = match py_int v with Some n => Ok n | None => Raise ValueError end)
  /\
  (forall name,
   fst (exchange (B "watch " ++ name ++ crlf) c)
   = Ok (B "WATCHING", v :: rest) ->
   short_number v ->
   fst (Connection.watch (Bytes name) c)
   = match py_int v with Some n => Ok n | None => Raise ValueError end)
  /\
  (forall name,
   fst (exchange (B "use " ++ name ++ crlf) c) = Ok (B "USING", v :: rest) ->
   fst (Connection.use (Bytes name) c) = Ok v)
  /\
  (fst (exchange (B "list-tube-used" ++ crlf) c)
   = Ok (B "USING", v :: rest) ->
   fst (Connection.using_ c) = Ok v).
Proof.
  repeat match goal with |- _ /\ _ => split end.
  - intros bound Hx _.
    unfold Connection.kick, bind, Connection._interact_value, bind.
    rewrite (interact_ok c _ [B "KICKED"] [] _ _ Hx eq_refl).
    unfold item0, ret, int_. now destruct (py_int v).
  - intros name Hx _.
    unfold Connection.watch, bind, Connection._interact_value, bind.
    rewrite (interact_ok c _ [B "WATCHING"] [] _ _ Hx eq_refl).
    unfold item0, ret, int_. now destruct (py_int v).
  - intros name Hx.
    unfold Connection.use, Connection._interact_value, bind.
    now rewrite (interact_ok c _ [B "USING"] [] _ _ Hx eq_refl).
  - intros Hx. unfold Connection.using_, Connection._interact_value, bind.
    now rewrite (interact_ok c _ [B "USING"] [] _ _ Hx eq_refl).
Qed.

End VerbTable.

Lemma not_found_raises_CommandFailed_witness :
  fst (Connection.kick_job 7 (Scripted.connect [B "NOT_FOUND" ++ crlf] []))
  = Raise (CommandFailed (B "kick-job") (B "NOT_FOUND") [])
  /\
  fst (Connection.pause_tube (Bytes (B "a b")) 3
         (Scripted.connect [B "NOT_FOUND" ++ crlf] []))
  = Raise (CommandFailed (B "pause-tube") (B "NOT_FOUND") [])
  /\
  fst (Connection.stats_tube (Bytes (B "jobs"))
         (Scripted.connect [B "NOT_FOUND" ++ crlf] []))
  = Raise (CommandFailed (B "stats-tube") (B "NOT_FOUND") []).
Proof.
  pose proof (not_found_raises_CommandFailed
                (Scripted.connect [B "NOT_FOUND" ++ crlf] []) [])
    as [_ [_ [Hkick [Hpause [_ [_ [_ Htube]]]]]]].
  split; [|split].
  - apply Hkick. reflexivity.
  - apply Hpause. reflexivity.
  - apply Htube. reflexivity.
Defined.

Lemma value_verbs_return_witness :
  fst (Connection.kick 10 (Scripted.connect [B "KICKED 3" ++ crlf] []))
  = Ok 3
  /\
  fst (Connection.watch (Bytes (B "jobs"))
         (Scripted.connect [B "WATCHING two" ++ crlf] []))
  = Raise ValueError
  /\
  fst (Connection.use (Bytes (B "jobs"))
         (Scripted.connect [B "USING jobs" ++ crlf] []))
  = Ok (B "jobs").
Proof.
  split; [|split].
  - apply (proj1 (value_verbs_return
                    (Scripted.connect [B "KICKED 3" ++ crlf] [])
                    (B "3") []) 10).
    + reflexivity.
    + unfold short_number, MAX_STR_DIGITS. simpl. lia.
  - apply (proj1 (proj2 (value_verbs_return
                    (Scripted.connect [B "WATCHING two" ++ crlf] [])
                    (B "two") [])) (B "jobs")).
    + reflexivity.
    + unfold short_number, MAX_STR_DIGITS. simpl. lia.
  - apply (proj1 (proj2 (proj2 (value_verbs_return
                    (Scripted.connect [B "USING jobs" ++ crlf] [])
                    (B "jobs") []))) (B "jobs")).
    reflexivity.
Defined.
